(** * python-arango: the AQL API wrapper (arango/aql.py)

    A shallow embedding of the request construction and response
    normalisation layer of [arango.aql]: the classes [AQL] and
    [AQLQueryCache].  Every method builds a [Request] and a response
    handler; the executor sends the request and applies the handler to the
    [Response].  Request builders are total functions, response handlers
    return an [outcome]: a value, or the Python exception that is raised. *)

From Stdlib Require Import String Ascii List ZArith Bool Lia.
From Stdlib Require Import DecimalString SpecFloat.
Import ListNotations.
Open Scope string_scope.
Open Scope Z_scope.

(** ** Python values

    Request payloads and response bodies are JSON-shaped Python objects.  A
    [dict] keeps its insertion order (which [json.dumps] follows), so it is
    an association list; every dict built or received has pairwise distinct
    keys.  Text is a [string] whose characters stand for the code points
    0..255.  A float is carried as its IEEE 754 datum. *)

Unset Elimination Schemes.

Inductive pyval : Type :=
| PNone
| PBool (b : bool)
| PInt (n : Z)
| PFloat (f : spec_float)
| PStr (s : string)
| PList (l : list pyval)
| PDict (d : list (string * pyval)).

Set Elimination Schemes.

Definition dict := list (string * pyval).

(** [x is None] and [x is not None]. *)
Definition is_none (v : pyval) : bool :=
  match v with PNone => true | _ => false end.

Definition is_not_none (v : pyval) : bool := negb (is_none v).

(** Truth value of an object, as tested by [if x:] and [x or y]. *)
Definition truthy (v : pyval) : bool :=
  match v with
  | PNone => false
  | PBool b => b
  | PInt n => negb (n =? 0)
  | PFloat (S754_zero _) => false
  | PFloat _ => true
  | PStr s => negb (s =? "")%string
  | PList l => match l with [] => false | _ => true end
  | PDict d => match d with [] => false | _ => true end
  end.

(** ** Dictionaries *)

Module Dict.

Definition keys (d : dict) : list string := map fst d.

(** [d.get(k)]: the value stored under [k], if any. *)
Fixpoint get (d : dict) (k : string) : option pyval :=
  match d with
  | [] => None
  | (k', v) :: r => if (k =? k')%string then Some v else get r k
  end.

(** [k in d]. *)
Definition has (d : dict) (k : string) : bool :=
  match get d k with Some _ => true | None => false end.

(** [d[k] = v]: an existing key keeps its position, a new key goes last. *)
Fixpoint set (d : dict) (k : string) (v : pyval) : dict :=
  match d with
  | [] => [(k, v)]
  | (k', v') :: r =>
      if (k =? k')%string then (k', v) :: r else (k', v') :: set r k v
  end.

(** The dictionary left by [d.pop(k)] or [d.pop(k, None)]. *)
Fixpoint remove (d : dict) (k : string) : dict :=
  match d with
  | [] => []
  | (k', v') :: r =>
      if (k =? k')%string then r else (k', v') :: remove r k
  end.

(** [d.update(o)]: the items of [o] are stored in [d] in order. *)
Fixpoint update (d o : dict) : dict :=
  match o with
  | [] => d
  | (k, v) :: r => update (set d k v) r
  end.

(** [if old in d: d[new] = d.pop(old)] on a dictionary. *)
Definition rename (d : dict) (old new : string) : dict :=
  match get d old with
  | Some v => set (remove d old) new v
  | None => d
  end.

(** A dictionary proper: no key occurs twice. *)
Definition wf (d : dict) : Prop := NoDup (keys d).

(** Equality of dictionaries ([==] in Python) ignores the order. *)
Definition equiv (d1 d2 : dict) : Prop := forall k, get d1 k = get d2 k.

End Dict.

(** [if v is not None: d[k] = v], the idiom every payload is built with. *)
Definition set_if_not_none (d : dict) (k : string) (v : pyval) : dict :=
  if is_not_none v then Dict.set d k v else d.

(** ** Requests, responses and exceptions *)

(** Modelled from the spec: [arango.request.Request] is not part of the
    sources.  The request descriptor holds the method, the path, the
    query parameters, the body, the alternate server-side script and the
    declared read and write collections; everything but method and
    endpoint defaults to [None]. *)
Record Request : Type := mkRequest {
  method : string;
  endpoint : string;
  params : pyval;
  data : pyval;
  command : option string;
  read : pyval;
  write : pyval
}.

Definition Request_ (m e : string) : Request :=
  mkRequest m e PNone PNone None PNone PNone.

(** Modelled from the spec: [arango.response.Response] is not part of the
    sources.  The response descriptor holds the success flag, the decoded
    body and the server error code, [None] when the body carries none. *)
Record Response : Type := mkResponse {
  is_success : bool;
  body : pyval;
  error_code : option Z
}.

(** One error class of [arango.exceptions] per failing operation. *)
Inductive error_kind : Type :=
| AQLQueryExplainError
| AQLQueryValidateError
| AQLQueryExecuteError
| AQLQueryListError
| AQLQueryClearError
| AQLQueryTrackingGetError
| AQLQueryKillError
| AQLQueryTrackingSetError
| AQLFunctionCreateError
| AQLFunctionDeleteError
| AQLFunctionListError
| AQLCacheEntriesError
| AQLCacheClearError
| AQLCacheConfigureError
| AQLCachePropertiesError.

(** What a [raise] or a failing primitive throws.  The server errors are
    constructed from the response and the request; the others are the
    built-in exceptions of the operations on objects. *)
Inductive exn : Type :=
| ServerError (k : error_kind) (resp : Response) (request : Request)
| KeyError (key : string)
| TypeError
| AttributeError.

Inductive outcome (A : Type) : Type :=
| Ret (a : A)
| Raise (e : exn).

Arguments Ret {A} a.
Arguments Raise {A} e.

Definition bind {A B : Type} (m : outcome A) (f : A -> outcome B) : outcome B :=
  match m with
  | Ret a => f a
  | Raise e => Raise e
  end.

Notation "x <- m ;; k" := (bind m (fun x => k))
  (at level 61, m at next level, right associativity).
Notation "m ;;; k" := (bind m (fun _ => k))
  (at level 61, right associativity).

Fixpoint mapM {A B : Type} (f : A -> outcome B) (l : list A) : outcome (list B) :=
  match l with
  | [] => Ret []
  | a :: r => b <- f a ;; bs <- mapM f r ;; Ret (b :: bs)
  end.

(** ** Operations on objects

    The primitives the handlers apply to a response body, with the
    exception each one raises on an object of another type. *)

(** [k in s] on text: [k] occurs in [s]. *)
Fixpoint occurs_in (k s : string) : bool :=
  prefix k s ||
  match s with
  | EmptyString => false
  | String _ r => occurs_in k r
  end.

(** [k in x] for a text [k]. *)
Definition py_contains (k : string) (x : pyval) : outcome bool :=
  match x with
  | PDict d => Ret (Dict.has d k)
  | PList l =>
      Ret (existsb (fun e => match e with
                             | PStr s => (s =? k)%string
                             | _ => false
                             end) l)
  | PStr s => Ret (occurs_in k s)
  | _ => Raise TypeError
  end.

(** [x[k]]. *)
Definition py_getitem (x : pyval) (k : string) : outcome pyval :=
  match x with
  | PDict d =>
      match Dict.get d k with
      | Some v => Ret v
      | None => Raise (KeyError k)
      end
  | _ => Raise TypeError
  end.

(** [x[k] = v]; the result is the object after the assignment. *)
Definition py_setitem (x : pyval) (k : string) (v : pyval) : outcome pyval :=
  match x with
  | PDict d => Ret (PDict (Dict.set d k v))
  | _ => Raise TypeError
  end.

(** [x.pop(k)]: the value removed and the object after the removal. *)
Definition py_pop (x : pyval) (k : string) : outcome (pyval * pyval) :=
  match x with
  | PDict d =>
      match Dict.get d k with
      | Some v => Ret (v, PDict (Dict.remove d k))
      | None => Raise (KeyError k)
      end
  | PList _ => Raise TypeError
  | _ => Raise AttributeError
  end.

(** [x.pop(k, None)] with the value dropped: the object after the call. *)
Definition py_pop_default (x : pyval) (k : string) : outcome pyval :=
  match x with
  | PDict d => Ret (PDict (Dict.remove d k))
  | PList _ => Raise TypeError
  | _ => Raise AttributeError
  end.

(** The items a [for] loop over [x] visits. *)
Definition py_iter (x : pyval) : outcome (list pyval) :=
  match x with
  | PList l => Ret l
  | PDict d => Ret (map (fun kv => PStr (fst kv)) d)
  | PStr s => Ret (map (fun c => PStr (String c "")) (list_ascii_of_string s))
  | _ => Raise TypeError
  end.

(** [if old in x: x[new] = x.pop(old)]. *)
Definition rename_key (old new : string) (x : pyval) : outcome pyval :=
  b <- py_contains old x ;;
  if b then p <- py_pop x old ;; py_setitem (snd p) new (fst p) else Ret x.

(** A loop [for item in x: ...] whose body updates each item in place:
    the items of a list are replaced by the updated ones; the items of any
    other iterable are texts, which the body leaves as they are unless it
    raises. *)
Definition for_each (f : pyval -> outcome pyval) (x : pyval) : outcome pyval :=
  items <- py_iter x ;;
  items' <- mapM f items ;;
  match x with
  | PList _ => Ret (PList items')
  | _ => Ret x
  end.

(** ** json.dumps

    The encoder of the standard [json] module with its defaults: ASCII
    output, [", "] between items and [": "] after a key. *)

Definition dquote : string := String "034"%char "".

Definition hex_digit (n : nat) : ascii :=
  nth n (list_ascii_of_string "0123456789abcdef") "0"%char.

(** The escape of one character: the short escapes, the printable ASCII
    characters as they are, [\u00xx] for the rest. *)
Definition escape_char (c : ascii) : string :=
  let n := nat_of_ascii c in
  if Nat.eqb n 34 then "\" ++ dquote
  else if Nat.eqb n 92 then "\\"
  else if Nat.eqb n 8 then "\b"
  else if Nat.eqb n 12 then "\f"
  else if Nat.eqb n 10 then "\n"
  else if Nat.eqb n 13 then "\r"
  else if Nat.eqb n 9 then "\t"
  else if (Nat.leb 32 n && Nat.leb n 126)%bool then String c ""
  else "\u00" ++ String (hex_digit (Nat.div n 16))
                  (String (hex_digit (Nat.modulo n 16)) "").

Fixpoint escape_string (s : string) : string :=
  match s with
  | EmptyString => ""
  | String c r => escape_char c ++ escape_string r
  end.

Definition encode_basestring_ascii (s : string) : string :=
  dquote ++ escape_string s ++ dquote.

Definition encode_int (n : Z) : string := NilZero.string_of_int (Z.to_int n).

(** What a handler returns: an object, or the [Cursor] made from the
    connection and the response body (a class of [arango.cursor]). *)
Inductive result : Type :=
| Value (v : pyval)
| Cursor (init_data : pyval).

Section AQL.

(** The text [float.__repr__] gives a finite non-zero float (sign,
    mantissa, exponent): its shortest decimal form, which is computed
    outside of this module. *)
Variable float_repr : bool -> positive -> Z -> string.

Definition encode_float (f : spec_float) : string :=
  match f with
  | S754_nan => "NaN"
  | S754_infinity false => "Infinity"
  | S754_infinity true => "-Infinity"
  | S754_zero false => "0.0"
  | S754_zero true => "-0.0"
  | S754_finite s m e => float_repr s m e
  end.

Fixpoint dumps (v : pyval) : string :=
  match v with
  | PNone => "null"
  | PBool true => "true"
  | PBool false => "false"
  | PInt n => encode_int n
  | PFloat f => encode_float f
  | PStr s => encode_basestring_ascii s
  | PList l => "[" ++ String.concat ", " (map dumps l) ++ "]"
  | PDict d =>
      "{" ++ String.concat ", "
               (map (fun kv => encode_basestring_ascii (fst kv) ++ ": "
                               ++ dumps (snd kv)) d)
          ++ "}"
  end.

(** ** class AQL *)

(** [AQL._format_tracking]. *)
Definition _format_tracking (body : pyval) : outcome pyval :=
  body <- py_pop_default body "code" ;;
  body <- py_pop_default body "error" ;;
  body <- rename_key "maxQueryStringLength" "max_query_string_length" body ;;
  body <- rename_key "maxSlowQueries" "max_slow_queries" body ;;
  body <- rename_key "slowQueryThreshold" "slow_query_threshold" body ;;
  body <- rename_key "trackBindVars" "track_bind_vars" body ;;
  body <- rename_key "trackSlowQueries" "track_slow_queries" body ;;
  Ret body.

(** [AQL._format_queries]. *)
Definition _format_queries (body : pyval) : outcome pyval :=
  for_each (fun query =>
              query <- rename_key "bindVars" "bind_vars" query ;;
              rename_key "runTime" "runtime" query) body.

(** *** explain *)

Definition explain_options (all_plans max_plans opt_rules : pyval) : dict :=
  let options := [("allPlans", all_plans)] in
  let options := set_if_not_none options "maxNumberOfPlans" max_plans in
  if is_not_none opt_rules
  then Dict.set options "optimizer" (PDict [("rules", opt_rules)])
  else options.

Definition explain_request (query : string)
    (all_plans max_plans opt_rules : pyval) : Request :=
  mkRequest "post" "/_api/explain" PNone
    (PDict [("query", PStr query);
            ("options", PDict (explain_options all_plans max_plans opt_rules))])
    None PNone PNone.

Definition explain_handler (request : Request) (resp : Response)
  : outcome result :=
  if negb (is_success resp)
  then Raise (ServerError AQLQueryExplainError resp request)
  else
    b <- py_contains "plan" (body resp) ;;
    if b then v <- py_getitem (body resp) "plan" ;; Ret (Value v)
    else v <- py_getitem (body resp) "plans" ;; Ret (Value v).

(** What [explain] returns when the executor hands [resp] to its
    handler. *)
Definition explain (query : string) (all_plans max_plans opt_rules : pyval)
    (resp : Response) : outcome result :=
  explain_handler (explain_request query all_plans max_plans opt_rules) resp.

(** *** validate *)

Definition validate_request (query : string) : Request :=
  mkRequest "post" "/_api/query" PNone (PDict [("query", PStr query)])
    None PNone PNone.

Definition validate_handler (request : Request) (resp : Response)
  : outcome result :=
  if negb (is_success resp)
  then Raise (ServerError AQLQueryValidateError resp request)
  else
    body <- py_pop_default (body resp) "code" ;;
    body <- py_pop_default body "error" ;;
    body <- rename_key "bindVars" "bind_vars" body ;;
    Ret (Value body).

(** *** execute *)

Record execute_args : Type := mkExecuteArgs {
  query : string;
  count : pyval;
  batch_size : pyval;
  ttl : pyval;
  bind_vars : pyval;
  full_count : pyval;
  max_plans : pyval;
  optimizer_rules : pyval;
  cache : pyval;
  memory_limit : pyval;
  fail_on_warning : pyval;
  profile : pyval;
  max_transaction_size : pyval;
  max_warning_count : pyval;
  intermediate_commit_count : pyval;
  intermediate_commit_size : pyval;
  satellite_sync_wait : pyval;
  read_collections : pyval;
  write_collections : pyval
}.

(** The call [execute(query)]: every keyword at its default. *)
Definition execute_defaults (q : string) : execute_args :=
  mkExecuteArgs q (PBool false) PNone PNone PNone PNone PNone PNone PNone
    (PInt 0) PNone PNone PNone PNone PNone PNone PNone PNone PNone.

(** The [options] dictionary of [execute]. *)
Definition execute_options (a : execute_args) : dict :=
  let options := [] in
  let options := set_if_not_none options "fullCount" (full_count a) in
  let options := set_if_not_none options "maxNumberOfPlans" (max_plans a) in
  let options :=
    if is_not_none (optimizer_rules a)
    then Dict.set options "optimizer" (PDict [("rules", optimizer_rules a)])
    else options in
  let options := set_if_not_none options "failOnWarning" (fail_on_warning a) in
  let options := set_if_not_none options "profile" (profile a) in
  let options :=
    set_if_not_none options "maxTransactionSize" (max_transaction_size a) in
  let options :=
    set_if_not_none options "maxWarningCount" (max_warning_count a) in
  let options :=
    set_if_not_none options "intermediateCommitCount"
      (intermediate_commit_count a) in
  let options :=
    set_if_not_none options "intermediateCommitSize"
      (intermediate_commit_size a) in
  set_if_not_none options "satelliteSyncWait" (satellite_sync_wait a).

(** The [data] dictionary of [execute], as it is sent. *)
Definition execute_data (a : execute_args) : dict :=
  let data := [("query", PStr (query a)); ("count", count a)] in
  let data := set_if_not_none data "batchSize" (batch_size a) in
  let data := set_if_not_none data "ttl" (ttl a) in
  let data := set_if_not_none data "bindVars" (bind_vars a) in
  let data := set_if_not_none data "cache" (cache a) in
  let data := set_if_not_none data "memoryLimit" (memory_limit a) in
  let options := execute_options a in
  let data :=
    if truthy (PDict options)
    then Dict.set data "options" (PDict options)
    else data in
  Dict.update data options.

(** The script run in place of the HTTP call inside a transaction. *)
Definition execute_command (is_transaction : bool) (a : execute_args)
  : option string :=
  if is_transaction
  then Some ("db._query(" ++ dumps (PStr (query a)) ++ ", "
             ++ dumps (bind_vars a) ++ ", "
             ++ dumps (PDict (execute_data a)) ++ ").toArray()")
  else None.

Definition execute_request (is_transaction : bool) (a : execute_args)
  : Request :=
  mkRequest "post" "/_api/cursor" PNone
    (PDict (execute_data a))
    (execute_command is_transaction a)
    (read_collections a)
    (write_collections a).

Definition execute_handler (request : Request) (resp : Response)
  : outcome result :=
  if negb (is_success resp)
  then Raise (ServerError AQLQueryExecuteError resp request)
  else Ret (Cursor (body resp)).

(** *** kill, queries, slow_queries, clear_slow_queries *)

Definition kill_request (query_id : string) : Request :=
  Request_ "delete" ("/_api/query/" ++ query_id).

Definition kill_handler (request : Request) (resp : Response)
  : outcome result :=
  if negb (is_success resp)
  then Raise (ServerError AQLQueryKillError resp request)
  else Ret (Value (PBool true)).

Definition queries_request : Request :=
  Request_ "get" "/_api/query/current".

Definition queries_handler (request : Request) (resp : Response)
  : outcome result :=
  if negb (is_success resp)
  then Raise (ServerError AQLQueryListError resp request)
  else v <- _format_queries (body resp) ;; Ret (Value v).

Definition slow_queries_request : Request :=
  Request_ "get" "/_api/query/slow".

Definition slow_queries_handler (request : Request) (resp : Response)
  : outcome result :=
  if negb (is_success resp)
  then Raise (ServerError AQLQueryListError resp request)
  else v <- _format_queries (body resp) ;; Ret (Value v).

Definition clear_slow_queries_request : Request :=
  Request_ "delete" "/_api/query/slow".

Definition clear_slow_queries_handler (request : Request) (resp : Response)
  : outcome result :=
  if negb (is_success resp)
  then Raise (ServerError AQLQueryClearError resp request)
  else Ret (Value (PBool true)).

(** *** tracking, set_tracking *)

Definition tracking_request : Request :=
  Request_ "get" "/_api/query/properties".

Definition tracking_handler (request : Request) (resp : Response)
  : outcome result :=
  if negb (is_success resp)
  then Raise (ServerError AQLQueryTrackingGetError resp request)
  else v <- _format_tracking (body resp) ;; Ret (Value v).

Record tracking_args : Type := mkTrackingArgs {
  enabled : pyval;
  max_slow_queries : pyval;
  slow_query_threshold : pyval;
  max_query_string_length : pyval;
  track_bind_vars : pyval;
  track_slow_queries : pyval
}.

(** The call [set_tracking()]: every keyword at its default. *)
Definition tracking_defaults : tracking_args :=
  mkTrackingArgs PNone PNone PNone PNone PNone PNone.

(** The [data] dictionary of [set_tracking]. *)
Definition set_tracking_data (a : tracking_args) : dict :=
  let data := [] in
  let data := set_if_not_none data "enabled" (enabled a) in
  let data := set_if_not_none data "maxSlowQueries" (max_slow_queries a) in
  let data :=
    set_if_not_none data "maxQueryStringLength" (max_query_string_length a) in
  let data :=
    set_if_not_none data "slowQueryThreshold" (slow_query_threshold a) in
  let data := set_if_not_none data "trackBindVars" (track_bind_vars a) in
  set_if_not_none data "trackSlowQueries" (track_slow_queries a).

Definition set_tracking_request (a : tracking_args) : Request :=
  mkRequest "put" "/_api/query/properties" PNone
    (PDict (set_tracking_data a)) None PNone PNone.

Definition set_tracking_handler (request : Request) (resp : Response)
  : outcome result :=
  if negb (is_success resp)
  then Raise (ServerError AQLQueryTrackingSetError resp request)
  else v <- _format_tracking (body resp) ;; Ret (Value v).

(** *** functions, create_function, delete_function *)

Definition functions_request : Request :=
  Request_ "get" "/_api/aqlfunction".

Definition functions_handler (request : Request) (resp : Response)
  : outcome result :=
  if negb (is_success resp)
  then Raise (ServerError AQLFunctionListError resp request)
  else
    let body := if truthy (body resp) then body resp else PDict [] in
    b <- py_contains "result" body ;;
    if negb b then Ret (Value (PList []))
    else
      items <- py_getitem body "result" ;;
      items <- for_each (rename_key "isDeterministic" "is_deterministic")
                 items ;;
      Ret (Value items).

Definition create_function_request (name code : string) : Request :=
  mkRequest "post" "/_api/aqlfunction" PNone
    (PDict [("name", PStr name); ("code", PStr code)]) None PNone PNone.

Definition create_function_handler (request : Request) (resp : Response)
  : outcome result :=
  if negb (is_success resp)
  then Raise (ServerError AQLFunctionCreateError resp request)
  else
    v <- py_getitem (body resp) "isNewlyCreated" ;;
    Ret (Value (PDict [("is_new", v)])).

Definition delete_function_request (name : string) (group : bool) : Request :=
  mkRequest "delete" ("/_api/aqlfunction/" ++ name)
    (PDict [("group", PBool group)]) PNone None PNone PNone.

(** [resp.error_code == 1582]. *)
Definition error_code_is (resp : Response) (n : Z) : bool :=
  match error_code resp with
  | Some c => c =? n
  | None => false
  end.

Definition delete_function_handler (ignore_missing : bool)
    (request : Request) (resp : Response) : outcome result :=
  if (error_code_is resp 1582 && ignore_missing)%bool
  then Ret (Value (PBool false))
  else if negb (is_success resp)
  then Raise (ServerError AQLFunctionDeleteError resp request)
  else
    v <- py_getitem (body resp) "deletedCount" ;;
    Ret (Value (PDict [("deleted", v)])).

(** What [delete_function] returns when the executor hands [resp] to its
    handler. *)
Definition delete_function (name : string) (group ignore_missing : bool)
    (resp : Response) : outcome result :=
  delete_function_handler ignore_missing
    (delete_function_request name group) resp.

(** ** class AQLQueryCache *)

Definition properties_request : Request :=
  Request_ "get" "/_api/query-cache/properties".

Definition properties_handler (request : Request) (resp : Response)
  : outcome result :=
  if negb (is_success resp)
  then Raise (ServerError AQLCachePropertiesError resp request)
  else
    mode <- py_getitem (body resp) "mode" ;;
    limit <- py_getitem (body resp) "maxResults" ;;
    Ret (Value (PDict [("mode", mode); ("limit", limit)])).

Definition configure_data (mode limit : pyval) : dict :=
  let data := [] in
  let data := set_if_not_none data "mode" mode in
  set_if_not_none data "maxResults" limit.

Definition configure_request (mode limit : pyval) : Request :=
  mkRequest "put" "/_api/query-cache/properties" PNone
    (PDict (configure_data mode limit)) None PNone PNone.

Definition configure_handler (request : Request) (resp : Response)
  : outcome result :=
  if negb (is_success resp)
  then Raise (ServerError AQLCacheConfigureError resp request)
  else
    mode <- py_getitem (body resp) "mode" ;;
    limit <- py_getitem (body resp) "maxResults" ;;
    Ret (Value (PDict [("mode", mode); ("limit", limit)])).

Definition entries_request : Request :=
  Request_ "get" "/_api/query-cache/entries".

Definition entries_handler (request : Request) (resp : Response)
  : outcome result :=
  if negb (is_success resp)
  then Raise (ServerError AQLCacheEntriesError resp request)
  else Ret (Value (body resp)).

Definition clear_request : Request :=
  Request_ "delete" "/_api/query-cache".

Definition clear_handler (request : Request) (resp : Response)
  : outcome result :=
  if negb (is_success resp)
  then Raise (ServerError AQLCacheClearError resp request)
  else Ret (Value (PBool true)).

End AQL.

(** ** Vocabulary of the statements *)

(** The keywords of [execute] stored at the top level of the payload when
    they are given, each with the key it is stored under. *)
Definition execute_top_level (a : execute_args) : list (string * pyval) :=
  [("batchSize", batch_size a);
   ("ttl", ttl a);
   ("bindVars", bind_vars a);
   ("cache", cache a)].

(** The keywords of [execute] that make up the nested options: the key,
    the argument, and the value stored under the key when the argument is
    given. *)
Definition execute_nested (a : execute_args)
  : list (string * pyval * pyval) :=
  [("fullCount", full_count a, full_count a);
   ("maxNumberOfPlans", max_plans a, max_plans a);
   ("optimizer", optimizer_rules a, PDict [("rules", optimizer_rules a)]);
   ("failOnWarning", fail_on_warning a, fail_on_warning a);
   ("profile", profile a, profile a);
   ("maxTransactionSize", max_transaction_size a, max_transaction_size a);
   ("maxWarningCount", max_warning_count a, max_warning_count a);
   ("intermediateCommitCount", intermediate_commit_count a,
     intermediate_commit_count a);
   ("intermediateCommitSize", intermediate_commit_size a,
     intermediate_commit_size a);
   ("satelliteSyncWait", satellite_sync_wait a, satellite_sync_wait a)].

(** A payload holds no key [k]: neither at its top level nor in the
    dictionary under its [options] key. *)
Definition no_key (k : string) (payload : dict) : Prop :=
  Dict.get payload k = None /\
  forall o, Dict.get payload "options" = Some (PDict o) -> Dict.get o k = None.

(** The keywords of [set_tracking]: the keyword, the key it is stored
    under, and the argument. *)
Definition set_tracking_fields (a : tracking_args)
  : list (string * string * pyval) :=
  [("enabled", "enabled", enabled a);
   ("max_slow_queries", "maxSlowQueries", max_slow_queries a);
   ("max_query_string_length", "maxQueryStringLength",
     max_query_string_length a);
   ("slow_query_threshold", "slowQueryThreshold", slow_query_threshold a);
   ("track_bind_vars", "trackBindVars", track_bind_vars a);
   ("track_slow_queries", "trackSlowQueries", track_slow_queries a)].

(** The field-name mapping of [set_tracking]: the key a keyword is stored
    under. *)
Definition set_tracking_wire_name (kw : string) : option string :=
  match find (fun f => (fst (fst f) =? kw)%string)
             (set_tracking_fields tracking_defaults) with
  | Some f => Some (snd (fst f))
  | None => None
  end.

(** The keys of a tracking body on the wire. *)
Definition tracking_wire_keys : list string :=
  ["enabled"; "maxQueryStringLength"; "maxSlowQueries"; "slowQueryThreshold";
   "trackBindVars"; "trackSlowQueries"].

(** The call [set_tracking( **d )]: each keyword takes the value stored
    under its name, [None] when there is none; a key that is no keyword is
    refused. *)
Definition tracking_kwargs (d : dict) : option tracking_args :=
  if forallb (fun kv => match set_tracking_wire_name (fst kv) with
                        | Some _ => true
                        | None => false
                        end) d
  then
    let arg kw := match Dict.get d kw with Some v => v | None => PNone end in
    Some (mkTrackingArgs (arg "enabled") (arg "max_slow_queries")
            (arg "slow_query_threshold") (arg "max_query_string_length")
            (arg "track_bind_vars") (arg "track_slow_queries"))
  else None.

(** The dictionary [_format_tracking] turns a dictionary into. *)
Definition tracking_norm (body : dict) : dict :=
  let body := Dict.remove body "code" in
  let body := Dict.remove body "error" in
  let body :=
    Dict.rename body "maxQueryStringLength" "max_query_string_length" in
  let body := Dict.rename body "maxSlowQueries" "max_slow_queries" in
  let body := Dict.rename body "slowQueryThreshold" "slow_query_threshold" in
  let body := Dict.rename body "trackBindVars" "track_bind_vars" in
  Dict.rename body "trackSlowQueries" "track_slow_queries".

(** The operations of [AQL] and [AQLQueryCache]. *)
Inductive operation : Type :=
| OpExplain
| OpValidate
| OpExecute
| OpKill
| OpQueries
| OpSlowQueries
| OpClearSlowQueries
| OpTracking
| OpSetTracking
| OpFunctions
| OpCreateFunction
| OpDeleteFunction
| OpCacheProperties
| OpCacheConfigure
| OpCacheEntries
| OpCacheClear.

(** The error class the handler of an operation raises. *)
Definition error_of (op : operation) : error_kind :=
  match op with
  | OpExplain => AQLQueryExplainError
  | OpValidate => AQLQueryValidateError
  | OpExecute => AQLQueryExecuteError
  | OpKill => AQLQueryKillError
  | OpQueries => AQLQueryListError
  | OpSlowQueries => AQLQueryListError
  | OpClearSlowQueries => AQLQueryClearError
  | OpTracking => AQLQueryTrackingGetError
  | OpSetTracking => AQLQueryTrackingSetError
  | OpFunctions => AQLFunctionListError
  | OpCreateFunction => AQLFunctionCreateError
  | OpDeleteFunction => AQLFunctionDeleteError
  | OpCacheProperties => AQLCachePropertiesError
  | OpCacheConfigure => AQLCacheConfigureError
  | OpCacheEntries => AQLCacheEntriesError
  | OpCacheClear => AQLCacheClearError
  end.

(** The response handler of an operation; [ignore_missing] is the keyword
    of [delete_function], which no other handler reads. *)
Definition handler_of (op : operation) (ignore_missing : bool)
  : Request -> Response -> outcome result :=
  match op with
  | OpExplain => explain_handler
  | OpValidate => validate_handler
  | OpExecute => execute_handler
  | OpKill => kill_handler
  | OpQueries => queries_handler
  | OpSlowQueries => slow_queries_handler
  | OpClearSlowQueries => clear_slow_queries_handler
  | OpTracking => tracking_handler
  | OpSetTracking => set_tracking_handler
  | OpFunctions => functions_handler
  | OpCreateFunction => create_function_handler
  | OpDeleteFunction => delete_function_handler ignore_missing
  | OpCacheProperties => properties_handler
  | OpCacheConfigure => configure_handler
  | OpCacheEntries => entries_handler
  | OpCacheClear => clear_handler
  end.

(** The same response with another error code. *)
Definition with_error_code (c : option Z) (resp : Response) : Response :=
  mkResponse (is_success resp) (body resp) c.

(** The same outcome, but for the error code of the response a server
    error carries. *)
Definition outcome_with_error_code {A : Type} (c : option Z) (o : outcome A)
  : outcome A :=
  match o with
  | Raise (ServerError k resp request) =>
      Raise (ServerError k (with_error_code c resp) request)
  | _ => o
  end.

(** An outcome that is no server error: a value, or an exception of the
    operations on objects. *)
Definition no_server_error {A : Type} (o : outcome A) : Prop :=
  match o with
  | Raise (ServerError _ _ _) => False
  | _ => True
  end.

(** [s] is a part of [t]. *)
Definition part (s t : string) : Prop := exists a b, t = a ++ s ++ b.

(** A text between double quotes. *)
Definition quoted (s : string) : string := dquote ++ s ++ dquote.

(** The call [execute(query, full_count=True)]. *)
Definition execute_full_count (q : string) : execute_args :=
  mkExecuteArgs q (PBool false) PNone PNone PNone (PBool true) PNone PNone
    PNone (PInt 0) PNone PNone PNone PNone PNone PNone PNone PNone PNone.

(** A [repr] of floats to run the encoder with at concrete calls. *)
Definition float_repr_example (s : bool) (m : positive) (e : Z) : string :=
  "1.5".

(** The call with other collections declared for the transaction, every
    other argument as it is. *)
Definition with_collections (a : execute_args) (r w : pyval) : execute_args :=
  mkExecuteArgs (query a) (count a) (batch_size a) (ttl a) (bind_vars a)
    (full_count a) (max_plans a) (optimizer_rules a) (cache a)
    (memory_limit a) (fail_on_warning a) (profile a)
    (max_transaction_size a) (max_warning_count a)
    (intermediate_commit_count a) (intermediate_commit_size a)
    (satellite_sync_wait a) r w.

(** What [_format_queries] makes of one record. *)
Definition format_query (d : dict) : dict :=
  Dict.rename (Dict.rename d "bindVars" "bind_vars") "runTime" "runtime".

(** What the handler of [functions] makes of one record. *)
Definition format_function (d : dict) : dict :=
  Dict.rename d "isDeterministic" "is_deterministic".

(** What the handler of [validate] makes of a dictionary. *)
Definition validate_norm (body : dict) : dict :=
  Dict.rename (Dict.remove (Dict.remove body "code") "error")
    "bindVars" "bind_vars".

(** An object that is no container: [None], a truth value or a number. *)
Definition is_scalar (v : pyval) : bool :=
  match v with
  | PNone | PBool _ | PInt _ | PFloat _ => true
  | _ => false
  end.

(** * Properties *)

(** ** Dictionaries *)

Module DictFacts.
Import Dict.

Lemma get_set (d : dict) (k k' : string) (v : pyval) :
  get (set d k v) k' = if (k' =? k)%string then Some v else get d k'.
Proof.
  induction d as [|[k0 v0] r IH]; simpl.
  - reflexivity.
  - destruct (String.eqb_spec k k0) as [->|Hk]; simpl.
    + destruct (k' =? k0)%string; reflexivity.
    + rewrite IH.
      destruct (String.eqb_spec k' k0) as [->|Hk'].
      * apply String.eqb_neq in Hk. rewrite String.eqb_sym, Hk. reflexivity.
      * reflexivity.
Qed.

Lemma get_none (d : dict) (k : string) :
  get d k = None <-> ~ In k (keys d).
Proof.
  induction d as [|[k0 v0] r IH]; simpl.
  - tauto.
  - destruct (String.eqb_spec k k0) as [->|Hk].
    + split; [discriminate | intros H; exfalso; apply H; now left].
    + rewrite IH. split.
      * intros H [E|I]; [congruence | tauto].
      * tauto.
Qed.

Lemma get_in (d : dict) (k : string) (v : pyval) :
  get d k = Some v -> In (k, v) d.
Proof.
  induction d as [|[k0 v0] r IH]; simpl; [discriminate|].
  destruct (String.eqb_spec k k0) as [->|Hk].
  - intros [= ->]. now left.
  - intros H. right. auto.
Qed.

Lemma in_get (d : dict) (k : string) (v : pyval) :
  wf d -> In (k, v) d -> get d k = Some v.
Proof.
  unfold wf.
  induction d as [|[k0 v0] r IH]; simpl; [tauto|].
  intros Hnd [E|I].
  - injection E as -> ->. now rewrite String.eqb_refl.
  - inversion Hnd as [|? ? Hnotin Hr]; subst.
    destruct (String.eqb_spec k k0) as [->|Hk].
    + exfalso. apply Hnotin. change (In (fst (k0, v)) (map fst r)).
      now apply in_map.
    + auto.
Qed.

Lemma keys_set (d : dict) (k : string) (v : pyval) :
  keys (set d k v) = if has d k then keys d else (keys d ++ [k])%list.
Proof.
  unfold has.
  induction d as [|[k0 v0] r IH]; simpl.
  - reflexivity.
  - destruct (String.eqb_spec k k0) as [->|Hk]; simpl.
    + reflexivity.
    + rewrite IH. destruct (get r k); reflexivity.
Qed.

Lemma wf_set (d : dict) (k : string) (v : pyval) :
  wf d -> wf (set d k v).
Proof.
  unfold wf. intros H. rewrite keys_set. unfold has.
  destruct (get d k) eqn:E; [exact H|].
  apply get_none in E.
  apply NoDup_app; [exact H | repeat constructor; simpl; tauto |].
  intros x Hx [<-|[]]. tauto.
Qed.

Lemma get_remove_other (d : dict) (k k' : string) :
  k' <> k -> get (remove d k) k' = get d k'.
Proof.
  intros Hne.
  induction d as [|[k0 v0] r IH]; simpl; [reflexivity|].
  destruct (String.eqb_spec k k0) as [->|Hk]; simpl.
  - apply String.eqb_neq in Hne. now rewrite Hne.
  - now rewrite IH.
Qed.

Lemma keys_remove_incl (d : dict) (k x : string) :
  In x (keys (remove d k)) -> In x (keys d).
Proof.
  induction d as [|[k0 v0] r IH]; simpl; [tauto|].
  destruct (k =? k0)%string; simpl; tauto.
Qed.

Lemma wf_remove (d : dict) (k : string) :
  wf d -> wf (remove d k).
Proof.
  unfold wf.
  induction d as [|[k0 v0] r IH]; simpl; [auto|].
  intros Hnd. inversion Hnd as [|? ? Hnotin Hr]; subst.
  destruct (k =? k0)%string; simpl; [exact Hr|].
  constructor; [|auto].
  intros Hin. apply Hnotin. eapply keys_remove_incl; eauto.
Qed.

Lemma get_remove_same (d : dict) (k : string) :
  wf d -> get (remove d k) k = None.
Proof.
  unfold wf.
  induction d as [|[k0 v0] r IH]; simpl; [reflexivity|].
  intros Hnd. inversion Hnd as [|? ? Hnotin Hr]; subst.
  destruct (String.eqb_spec k k0) as [->|Hk]; simpl.
  - now apply get_none.
  - apply String.eqb_neq in Hk. rewrite Hk. auto.
Qed.

Lemma get_remove (d : dict) (k k' : string) :
  wf d ->
  get (remove d k) k' = if (k' =? k)%string then None else get d k'.
Proof.
  intros Hwf. destruct (String.eqb_spec k' k) as [->|Hne].
  - now apply get_remove_same.
  - now apply get_remove_other.
Qed.

Lemma get_update (o d : dict) (k : string) :
  wf o ->
  get (update d o) k =
    match get o k with Some v => Some v | None => get d k end.
Proof.
  unfold wf. revert d.
  induction o as [|[k0 v0] r IH]; simpl; intros d Hnd; [reflexivity|].
  inversion Hnd as [|? ? Hnotin Hr]; subst.
  rewrite IH by exact Hr. rewrite get_set.
  destruct (String.eqb_spec k k0) as [->|Hk].
  - apply get_none in Hnotin. now rewrite Hnotin.
  - reflexivity.
Qed.

Lemma set_not_nil (d : dict) (k : string) (v : pyval) : set d k v <> [].
Proof.
  destruct d as [|[k0 v0] r]; simpl; [discriminate|].
  destruct (k =? k0)%string; discriminate.
Qed.

End DictFacts.

(** ** The payload of execute *)

Module ExecuteFacts.
Import Dict DictFacts.

Lemma get_cond_set (c : bool) (d : dict) (k k' : string) (v : pyval) :
  get (if c then set d k v else d) k' =
    if ((k' =? k)%string && c)%bool then Some v else get d k'.
Proof.
  destruct c; [rewrite get_set|]; destruct (k' =? k)%string; reflexivity.
Qed.

Lemma wf_cond_set (c : bool) (d : dict) (k : string) (v : pyval) :
  wf d -> wf (if c then set d k v else d).
Proof. destruct c; [apply wf_set | trivial]. Qed.

Lemma cond_set_nil (c : bool) (d : dict) (k : string) (v : pyval) :
  (if c then set d k v else d) = [] -> c = false /\ d = [].
Proof.
  destruct c; [|tauto]. intros H. now apply set_not_nil in H.
Qed.

Lemma wf_execute_options (a : execute_args) : wf (execute_options a).
Proof.
  unfold execute_options, set_if_not_none.
  repeat apply wf_cond_set. constructor.
Qed.

(** A key of the payload is looked up in the options first, which were
    merged last, then in the top-level fields. *)
Lemma get_execute_data (a : execute_args) (k : string) :
  get (execute_data a) k =
    match get (execute_options a) k with
    | Some v => Some v
    | None =>
        if ((k =? "options")%string && truthy (PDict (execute_options a)))%bool
        then Some (PDict (execute_options a))
        else if ((k =? "memoryLimit")%string && is_not_none (memory_limit a))%bool
        then Some (memory_limit a)
        else if ((k =? "cache")%string && is_not_none (cache a))%bool
        then Some (cache a)
        else if ((k =? "bindVars")%string && is_not_none (bind_vars a))%bool
        then Some (bind_vars a)
        else if ((k =? "ttl")%string && is_not_none (ttl a))%bool
        then Some (ttl a)
        else if ((k =? "batchSize")%string && is_not_none (batch_size a))%bool
        then Some (batch_size a)
        else if (k =? "query")%string then Some (PStr (query a))
        else if (k =? "count")%string then Some (count a)
        else None
    end.
Proof.
  unfold execute_data.
  rewrite get_update by apply wf_execute_options.
  destruct (get (execute_options a) k); [reflexivity|].
  unfold set_if_not_none. rewrite !get_cond_set. reflexivity.
Qed.

Lemma get_execute_options (a : execute_args) (k : string) :
  get (execute_options a) k =
    if ((k =? "satelliteSyncWait")%string
        && is_not_none (satellite_sync_wait a))%bool
    then Some (satellite_sync_wait a)
    else if ((k =? "intermediateCommitSize")%string
             && is_not_none (intermediate_commit_size a))%bool
    then Some (intermediate_commit_size a)
    else if ((k =? "intermediateCommitCount")%string
             && is_not_none (intermediate_commit_count a))%bool
    then Some (intermediate_commit_count a)
    else if ((k =? "maxWarningCount")%string
             && is_not_none (max_warning_count a))%bool
    then Some (max_warning_count a)
    else if ((k =? "maxTransactionSize")%string
             && is_not_none (max_transaction_size a))%bool
    then Some (max_transaction_size a)
    else if ((k =? "profile")%string && is_not_none (profile a))%bool
    then Some (profile a)
    else if ((k =? "failOnWarning")%string
             && is_not_none (fail_on_warning a))%bool
    then Some (fail_on_warning a)
    else if ((k =? "optimizer")%string
             && is_not_none (optimizer_rules a))%bool
    then Some (PDict [("rules", optimizer_rules a)])
    else if ((k =? "maxNumberOfPlans")%string
             && is_not_none (max_plans a))%bool
    then Some (max_plans a)
    else if ((k =? "fullCount")%string && is_not_none (full_count a))%bool
    then Some (full_count a)
    else None.
Proof.
  unfold execute_options, set_if_not_none.
  rewrite !get_cond_set. reflexivity.
Qed.

Lemma is_not_none_false (v : pyval) : is_not_none v = false <-> v = PNone.
Proof. destruct v; simpl; split; intros H; try reflexivity; discriminate H. Qed.

Lemma is_not_none_true (v : pyval) : is_not_none v = true <-> v <> PNone.
Proof.
  destruct v; simpl; split; intros H; try reflexivity; try discriminate.
  now elim H.
Qed.

(** The options are empty exactly when no nested keyword is given. *)
Lemma execute_options_nil (a : execute_args) :
  execute_options a = [] <->
  (forall k v w, In (k, v, w) (execute_nested a) -> v = PNone).
Proof.
  split.
  - intros H. unfold execute_options, set_if_not_none in H.
    repeat (apply cond_set_nil in H; destruct H as [? H]).
    intros k v w Hin. simpl in Hin.
    repeat (destruct Hin as [E|Hin];
            [injection E as <- <- <-; now apply is_not_none_false|]).
    contradiction.
  - intros H. unfold execute_options, set_if_not_none.
    repeat match goal with
           | |- context [is_not_none ?x] =>
               rewrite (proj2 (is_not_none_false x))
                 by (eapply H; simpl; eauto 20)
           end.
    reflexivity.
Qed.

(** An option that is given is stored in the options and in the
    payload. *)
Lemma execute_nested_get (a : execute_args) (k : string) (v w : pyval) :
  In (k, v, w) (execute_nested a) -> v <> PNone ->
  get (execute_options a) k = Some w /\ get (execute_data a) k = Some w.
Proof.
  intros Hin Hv. apply is_not_none_true in Hv.
  assert (Hk : get (execute_options a) k = Some w).
  { simpl in Hin.
    repeat (destruct Hin as [E|Hin];
            [injection E as <- <- <-;
             rewrite get_execute_options; simpl; rewrite Hv;
             reflexivity|]).
    contradiction. }
  split; [exact Hk|]. now rewrite get_execute_data, Hk.
Qed.

(** The dictionary under the [options] key is the options. *)
Lemma get_execute_data_options (a : execute_args) :
  get (execute_data a) "options" =
    if truthy (PDict (execute_options a))
    then Some (PDict (execute_options a)) else None.
Proof.
  rewrite get_execute_data, get_execute_options. simpl.
  destruct (execute_options a); reflexivity.
Qed.

End ExecuteFacts.

(** ** AQL.execute: the payload *)

Import Dict DictFacts ExecuteFacts.

(** C1.  In the payload of [execute], a keyword left unset (batch_size,
    ttl, bind_vars, cache and the ten nested options) contributes no key,
    neither at the top level nor under [options]; the memory limit left at
    its default 0 is sent as [memoryLimit: 0]. *)
Theorem execute_unset_is_absent
    (fr : bool -> positive -> Z -> string) (tx : bool) (a : execute_args) :
  exists payload,
    data (execute_request fr tx a) = PDict payload /\
    (forall k v, In (k, v) (execute_top_level a) -> v = PNone ->
                 no_key k payload) /\
    (forall k v w, In (k, v, w) (execute_nested a) -> v = PNone ->
                   no_key k payload) /\
    (memory_limit a = PInt 0 ->
     get payload "memoryLimit" = Some (PInt 0)).
Proof.
  exists (execute_data a). split; [reflexivity|].
  assert (Hopt : forall o k,
             get (execute_data a) "options" = Some (PDict o) ->
             get (execute_options a) k = None -> get o k = None).
  { intros o k Ho Hk. rewrite get_execute_data_options in Ho.
    destruct (truthy _); [|discriminate]. now injection Ho as <-. }
  split; [|split].
  - intros k v Hin Hv. simpl in Hin.
    repeat (destruct Hin as [E|Hin];
            [injection E as <- <-;
             match goal with
             | |- no_key ?key _ =>
                 assert (Hk : get (execute_options a) key = None)
                   by (rewrite get_execute_options; reflexivity)
             end;
             split; [rewrite get_execute_data, Hk, Hv; reflexivity
                    | intros o Ho; exact (Hopt _ _ Ho Hk)] |]).
    contradiction.
  - intros k v w Hin Hv. simpl in Hin.
    repeat (destruct Hin as [E|Hin];
            [injection E as <- <- <-;
             match goal with
             | |- no_key ?key _ =>
                 assert (Hk : get (execute_options a) key = None)
                   by (rewrite get_execute_options, Hv; reflexivity)
             end;
             split; [rewrite get_execute_data, Hk; simpl;
                     destruct (execute_options a); reflexivity
                    | intros o Ho; exact (Hopt _ _ Ho Hk)] |]).
    contradiction.
  - intros Hm. rewrite get_execute_data, get_execute_options, Hm. reflexivity.
Qed.

(** C3.  When a nested option of [execute] is given, the payload holds an
    [options] dictionary, and every option given is stored both in that
    dictionary and at the top level of the payload; the dictionary holds
    nothing else.  When none is given, the payload has no [options] key. *)
Theorem execute_options_nested_and_flat
    (fr : bool -> positive -> Z -> string) (tx : bool) (a : execute_args) :
  exists payload,
    data (execute_request fr tx a) = PDict payload /\
    ((exists k v w, In (k, v, w) (execute_nested a) /\ v <> PNone) ->
     exists o,
       get payload "options" = Some (PDict o) /\
       (forall k v w, In (k, v, w) (execute_nested a) -> v <> PNone ->
                      get o k = Some w /\ get payload k = Some w) /\
       (forall k x, get o k = Some x ->
                    exists v, In (k, v, x) (execute_nested a) /\ v <> PNone)) /\
    ((forall k v w, In (k, v, w) (execute_nested a) -> v = PNone) ->
     get payload "options" = None).
Proof.
  exists (execute_data a). split; [reflexivity|]. split.
  - intros (k0 & v0 & w0 & Hin0 & Hv0).
    exists (execute_options a). split; [|split].
    + rewrite get_execute_data_options.
      destruct (execute_options a) eqn:E; [|reflexivity].
      exfalso. apply Hv0. eapply execute_options_nil; eauto.
    + intros k v w. apply execute_nested_get.
    + clear k0 v0 w0 Hin0 Hv0. intros k x H.
      rewrite get_execute_options in H.
      repeat match type of H with
             | context [((k =? ?s)%string && is_not_none ?v)%bool] =>
                 destruct (String.eqb_spec k s);
                 [ subst k; destruct (is_not_none v) eqn:Hnn; simpl in H;
                   [ injection H as <-; eexists; split;
                     [ simpl; eauto 20
                     | apply is_not_none_true; exact Hnn ]
                   | ]
                 | simpl in H ]
             end.
      all: discriminate H.
  - intros H. rewrite get_execute_data_options.
    apply execute_options_nil in H. now rewrite H.
Qed.

(** C10.  The payload of [execute] holds the key [memoryLimit] exactly
    when the argument [memory_limit] is not [None], with the argument as
    its value: passed as [None] it leaves no key at all, and a value 0 in
    the payload comes from an argument 0 (the default, or an explicit 0). *)
Theorem execute_memory_limit_key
    (fr : bool -> positive -> Z -> string) (tx : bool) (a : execute_args) :
  exists payload,
    data (execute_request fr tx a) = PDict payload /\
    (memory_limit a = PNone -> no_key "memoryLimit" payload) /\
    (get payload "memoryLimit" <> None <-> memory_limit a <> PNone) /\
    (forall v, get payload "memoryLimit" = Some v -> memory_limit a = v) /\
    (memory_limit a <> PNone ->
     get payload "memoryLimit" = Some (memory_limit a)).
Proof.
  exists (execute_data a). split; [reflexivity|].
  assert (Hget : get (execute_data a) "memoryLimit" =
                 if is_not_none (memory_limit a)
                 then Some (memory_limit a) else None).
  { rewrite get_execute_data, get_execute_options. simpl.
    destruct (is_not_none (memory_limit a)); reflexivity. }
  rewrite Hget.
  destruct (is_not_none (memory_limit a)) eqn:Hnn.
  - apply is_not_none_true in Hnn.
    repeat split; congruence.
  - apply is_not_none_false in Hnn.
    split; [|split; [|split]].
    + intros _. split; [exact Hget|].
      intros o Ho. rewrite get_execute_data_options in Ho.
      destruct (truthy _); [|discriminate]. injection Ho as <-.
      rewrite get_execute_options. reflexivity.
    + split; intros H; [now elim H | contradiction].
    + intros v H. discriminate H.
    + intros H. contradiction.
Qed.

(** ** AQL.set_tracking and the tracking formatter *)

Module TrackingFacts.

Lemma get_set_tracking_data (a : tracking_args) (k : string) :
  get (set_tracking_data a) k =
    if ((k =? "trackSlowQueries")%string
        && is_not_none (track_slow_queries a))%bool
    then Some (track_slow_queries a)
    else if ((k =? "trackBindVars")%string
             && is_not_none (track_bind_vars a))%bool
    then Some (track_bind_vars a)
    else if ((k =? "slowQueryThreshold")%string
             && is_not_none (slow_query_threshold a))%bool
    then Some (slow_query_threshold a)
    else if ((k =? "maxQueryStringLength")%string
             && is_not_none (max_query_string_length a))%bool
    then Some (max_query_string_length a)
    else if ((k =? "maxSlowQueries")%string
             && is_not_none (max_slow_queries a))%bool
    then Some (max_slow_queries a)
    else if ((k =? "enabled")%string && is_not_none (enabled a))%bool
    then Some (enabled a)
    else None.
Proof.
  unfold set_tracking_data, set_if_not_none.
  rewrite !get_cond_set. reflexivity.
Qed.

Lemma wf_set_tracking_data (a : tracking_args) : wf (set_tracking_data a).
Proof.
  unfold set_tracking_data, set_if_not_none.
  repeat apply wf_cond_set. constructor.
Qed.

Lemma rename_key_dict (old new : string) (d : dict) :
  rename_key old new (PDict d) = Ret (PDict (rename d old new)).
Proof.
  unfold rename_key, rename, py_contains, py_pop, has. simpl.
  destruct (get d old); reflexivity.
Qed.

Lemma format_tracking_dict (body : dict) :
  _format_tracking (PDict body) = Ret (PDict (tracking_norm body)).
Proof.
  unfold _format_tracking, tracking_norm. simpl.
  repeat (rewrite rename_key_dict; simpl). reflexivity.
Qed.

Lemma wf_rename (d : dict) (old new : string) :
  wf d -> wf (rename d old new).
Proof.
  intros H. unfold rename. destruct (get d old); [|exact H].
  now apply wf_set, wf_remove.
Qed.

Lemma get_rename (d : dict) (old new k : string) :
  wf d -> old <> new ->
  get (rename d old new) k =
    if (k =? new)%string
    then match get d old with Some v => Some v | None => get d new end
    else if (k =? old)%string then None else get d k.
Proof.
  intros Hwf Hne. unfold rename.
  destruct (get d old) as [v|] eqn:Hold.
  - rewrite get_set, get_remove by exact Hwf.
    destruct (k =? new)%string; reflexivity.
  - destruct (String.eqb_spec k new) as [->|Hk]; [reflexivity|].
    destruct (String.eqb_spec k old) as [->|Hk']; [exact Hold|reflexivity].
Qed.

Lemma wf_tracking_norm (body : dict) : wf body -> wf (tracking_norm body).
Proof.
  intros H. unfold tracking_norm.
  repeat apply wf_rename. now repeat apply wf_remove.
Qed.

Lemma get_tracking_norm (body : dict) (k : string) :
  wf body ->
  get (tracking_norm body) k =
    if (k =? "track_slow_queries")%string
    then match get body "trackSlowQueries" with
         | Some v => Some v
         | None => get body "track_slow_queries"
         end
    else if (k =? "trackSlowQueries")%string then None
    else if (k =? "track_bind_vars")%string
    then match get body "trackBindVars" with
         | Some v => Some v
         | None => get body "track_bind_vars"
         end
    else if (k =? "trackBindVars")%string then None
    else if (k =? "slow_query_threshold")%string
    then match get body "slowQueryThreshold" with
         | Some v => Some v
         | None => get body "slow_query_threshold"
         end
    else if (k =? "slowQueryThreshold")%string then None
    else if (k =? "max_slow_queries")%string
    then match get body "maxSlowQueries" with
         | Some v => Some v
         | None => get body "max_slow_queries"
         end
    else if (k =? "maxSlowQueries")%string then None
    else if (k =? "max_query_string_length")%string
    then match get body "maxQueryStringLength" with
         | Some v => Some v
         | None => get body "max_query_string_length"
         end
    else if (k =? "maxQueryStringLength")%string then None
    else if (k =? "error")%string then None
    else if (k =? "code")%string then None
    else get body k.
Proof.
  intros H. unfold tracking_norm.
  repeat (rewrite get_rename;
          [ | repeat apply wf_rename; now repeat apply wf_remove
            | discriminate ]).
  repeat (rewrite get_remove; [ | now repeat apply wf_remove]).
  reflexivity.
Qed.

(** A body on the wire has none of the normalised names among its keys. *)
Lemma wire_body_get (body : dict) (k : string) :
  (forall x, In x (keys body) -> In x tracking_wire_keys) ->
  ~ In k tracking_wire_keys -> get body k = None.
Proof. intros Hk Hn. apply get_none. intros Hin. apply Hn, Hk, Hin. Qed.

(** The normalised dictionary stores under each keyword what the body
    stores under the key of that keyword. *)
Lemma tracking_norm_get (body : dict) (kw w : string) (v : pyval) :
  wf body ->
  (forall x, In x (keys body) -> In x tracking_wire_keys) ->
  In (kw, w, v) (set_tracking_fields tracking_defaults) ->
  get (tracking_norm body) kw = get body w.
Proof.
  intros Hwf Hkeys Hin. simpl in Hin.
  repeat (destruct Hin as [E|Hin];
          [ injection E as <- <- <-;
            rewrite get_tracking_norm by exact Hwf; simpl;
            try match goal with
                | |- match get body _ with
                     | Some _ => _
                     | None => get body ?n
                     end = _ =>
                    rewrite (wire_body_get body n Hkeys)
                      by (simpl; intuition discriminate)
                end;
            try (destruct (get body _)); reflexivity
          | ]).
  contradiction.
Qed.

(** Every key of the normalised dictionary is a keyword. *)
Lemma tracking_norm_keys (body : dict) (k : string) :
  wf body ->
  (forall x, In x (keys body) -> In x tracking_wire_keys) ->
  In k (keys (tracking_norm body)) -> set_tracking_wire_name k <> None.
Proof.
  intros Hwf Hkeys Hin Hnone.
  assert (Hget : get (tracking_norm body) k = None);
    [|apply get_none in Hget; contradiction].
  assert (Hne : forall kw w v,
             In (kw, w, v) (set_tracking_fields tracking_defaults) ->
             k <> kw).
  { intros kw w v Hf ->. simpl in Hf.
    repeat (destruct Hf as [E|Hf];
            [injection E as <- <- <-; discriminate Hnone|]).
    contradiction. }
  rewrite get_tracking_norm by exact Hwf.
  repeat match goal with
         | |- context [(k =? ?s)%string] =>
             destruct (String.eqb_spec k s) as [Heq|?]; cbv beta iota;
             [ subst k; first [discriminate Hnone | simpl; reflexivity] | ]
         end.
  apply wire_body_get; [exact Hkeys|].
  simpl. intros Hin'.
  repeat (destruct Hin' as [E|Hin'];
          [ try congruence;
            symmetry in E; revert E; eapply Hne; simpl; eauto 20 | ]).
  contradiction.
Qed.

(** A key has a value in the payload of [set_tracking] exactly when it
    is the key of a keyword given with that value. *)
Lemma get_set_tracking_data_iff (a : tracking_args) :
  forall k v,
    get (set_tracking_data a) k = Some v <->
    exists kw, In (kw, k, v) (set_tracking_fields a) /\ v <> PNone.
Proof.
  intros k v. split.
  - intros H. rewrite get_set_tracking_data in H.
    repeat match type of H with
           | context [((k =? ?s)%string && is_not_none ?x)%bool] =>
               destruct (String.eqb_spec k s);
               [ subst k; destruct (is_not_none x) eqn:Hnn; simpl in H;
                 [ injection H as <-; eexists; split;
                   [ simpl; eauto 20
                   | apply is_not_none_true; exact Hnn ]
                 | ]
               | simpl in H ]
           end.
    all: discriminate H.
  - intros (kw & Hin & Hv). apply is_not_none_true in Hv.
    simpl in Hin.
    repeat (destruct Hin as [E|Hin];
            [injection E as <- <- <-;
             rewrite get_set_tracking_data; simpl; rewrite Hv;
             reflexivity|]).
    contradiction.
Qed.

End TrackingFacts.

Import TrackingFacts.

(** C6.  The payload of [set_tracking] holds exactly the fields whose
    keyword was given: a key has a value in it if and only if it is the
    key of a keyword given with that value.  The call
    [set_tracking(max_slow_queries=5)] sends [{maxSlowQueries: 5}]. *)
Theorem set_tracking_sends_given_fields (a : tracking_args) :
  exists payload,
    data (set_tracking_request a) = PDict payload /\
    wf payload /\
    (forall k v,
        get payload k = Some v <->
        exists kw, In (kw, k, v) (set_tracking_fields a) /\ v <> PNone) /\
    data (set_tracking_request
            (mkTrackingArgs PNone (PInt 5) PNone PNone PNone PNone))
    = PDict [("maxSlowQueries", PInt 5)].
Proof.
  exists (set_tracking_data a).
  split; [reflexivity|]. split; [apply wf_set_tracking_data|].
  split; [|reflexivity].
  apply get_set_tracking_data_iff.
Qed.

(** C5.  The round trip of the tracking fields through [_format_tracking]
    and back through [set_tracking], called with the normalised fields as
    its keywords: for a body whose keys are among the six wire names the
    payload sent holds, under every key, the value of the body, except
    that a field whose value is [None] is not sent.  So the payload is the
    original body when no value of the body is [None]. *)
Theorem set_tracking_round_trip (body : dict) :
  wf body ->
  (forall k, In k (keys body) -> In k tracking_wire_keys) ->
  exists norm a,
    _format_tracking (PDict body) = Ret (PDict norm) /\
    tracking_kwargs norm = Some a /\
    data (set_tracking_request a) = PDict (set_tracking_data a) /\
    wf (set_tracking_data a) /\
    (forall k,
        get (set_tracking_data a) k =
        match get body k with
        | Some v => if is_none v then None else Some v
        | None => None
        end) /\
    ((forall k, get body k <> Some PNone) ->
     Dict.equiv (set_tracking_data a) body).
Proof.
  intros Hwf Hkeys.
  exists (tracking_norm body). eexists.
  split; [apply format_tracking_dict|]. split.
  - unfold tracking_kwargs.
    replace (forallb _ (tracking_norm body)) with true; [reflexivity|].
    symmetry. apply forallb_forall. intros [k v] Hin. simpl.
    destruct (set_tracking_wire_name k) eqn:E; [reflexivity|].
    exfalso. apply (tracking_norm_keys body k Hwf Hkeys); [|exact E].
    change k with (fst (k, v)). now apply in_map.
  - split; [reflexivity|]. split; [apply wf_set_tracking_data|].
    set (arg := fun kw => match get (tracking_norm body) kw with
                          | Some v => v
                          | None => PNone
                          end).
    assert (Harg : forall kw w v,
               In (kw, w, v) (set_tracking_fields tracking_defaults) ->
               arg kw = match get body w with Some x => x | None => PNone end).
    { intros kw w v Hf. unfold arg.
      now rewrite (tracking_norm_get body kw w v Hwf Hkeys Hf). }
    match goal with
    | |- (forall k, get (set_tracking_data ?a) k = _) /\ _ => set (args := a)
    end.
    assert (Hfields : forall kw w v,
               In (kw, w, v) (set_tracking_fields args) <->
               v = arg kw /\
               In (kw, w, PNone) (set_tracking_fields tracking_defaults)).
    { intros kw w v. simpl. fold arg. split.
      - intros Hin.
        repeat (destruct Hin as [E|Hin];
                [injection E as <- <- <-; split; [reflexivity|tauto]|]).
        contradiction.
      - intros [-> Hin].
        repeat (destruct Hin as [E|Hin];
                [injection E as <- <-; tauto|]).
        contradiction. }
    assert (Hget : forall k,
               get (set_tracking_data args) k =
               match get body k with
               | Some v => if is_none v then None else Some v
               | None => None
               end).
    { intros k.
      destruct (get (set_tracking_data args) k) as [v|] eqn:E'.
      - apply get_set_tracking_data_iff in E'.
        destruct E' as (kw & Hin & Hv). apply Hfields in Hin.
        destruct Hin as [-> Hf]. rewrite (Harg kw k PNone Hf) in Hv |- *.
        destruct (get body k) as [x|]; [|now elim Hv].
        destruct (is_none x) eqn:Hx; [|reflexivity].
        destruct x; try discriminate Hx. now elim Hv.
      - destruct (get body k) as [x|] eqn:E; [|reflexivity].
        destruct (is_none x) eqn:Hx; [reflexivity|].
        exfalso.
        assert (Hsome : get (set_tracking_data args) k = Some x);
          [|rewrite Hsome in E'; discriminate E'].
        apply get_set_tracking_data_iff.
        assert (Hin : In k tracking_wire_keys)
          by (apply Hkeys; destruct (get_none body k) as [_ H];
              destruct (in_dec string_dec k (keys body)) as [?|Hn];
              [assumption | rewrite (H Hn) in E; discriminate]).
        assert (Hkw : exists kw,
                   In (kw, k, PNone) (set_tracking_fields tracking_defaults)).
        { simpl in Hin.
          repeat (destruct Hin as [<-|Hin]; [eexists; simpl; eauto 20|]).
          contradiction. }
        destruct Hkw as [kw Hf]. exists kw. split.
        + apply Hfields. split; [|exact Hf].
          now rewrite (Harg kw k PNone Hf), E.
        + intros ->. discriminate Hx. }
    split; [exact Hget|].
    intros Hval k. rewrite Hget.
    destruct (get body k) as [x|] eqn:E; [|reflexivity].
    destruct (is_none x) eqn:Hx; [|reflexivity].
    destruct x; try discriminate Hx. now elim (Hval k).
Qed.

(** The round trip does not give back a field whose value is [None]: sent
    through [_format_tracking] and [set_tracking], the body
    [{trackBindVars: None}] comes back as the empty payload, so the round
    trip is not the identity on every body over the six wire names. *)
Lemma set_tracking_round_trip_drops_none :
  ~ (forall body,
        wf body ->
        (forall k, In k (keys body) -> In k tracking_wire_keys) ->
        exists norm a,
          _format_tracking (PDict body) = Ret (PDict norm) /\
          tracking_kwargs norm = Some a /\
          Dict.equiv (set_tracking_data a) body).
Proof.
  intros H.
  destruct (H [("trackBindVars", PNone)]) as (norm & a & Hf & Ha & Heq).
  - unfold wf. simpl. repeat constructor. simpl. tauto.
  - simpl. intros k [<-|[]]. tauto.
  - simpl in Hf. injection Hf as <-.
    injection Ha as <-.
    specialize (Heq "trackBindVars"). discriminate Heq.
Qed.

(** ** AQL.explain *)

(** C7.  On a successful response whose body is a dictionary, [explain]
    returns the value under [plan] when the body has that key, and the
    value under [plans], as it is, when the body has no [plan]; the keyword
    [all_plans] plays no part in the choice. *)
Theorem explain_returns_plan_or_plans
    (query : string) (all_plans max_plans opt_rules : pyval)
    (resp : Response) (d : dict) :
  is_success resp = true ->
  body resp = PDict d ->
  (forall p, get d "plan" = Some p ->
             explain query all_plans max_plans opt_rules resp
             = Ret (Value p)) /\
  (get d "plan" = None ->
   forall ps, get d "plans" = Some ps ->
              explain query all_plans max_plans opt_rules resp
              = Ret (Value ps)).
Proof.
  intros Hs Hb. unfold explain, explain_handler.
  rewrite Hs, Hb. simpl. unfold has. split.
  - intros p Hp. rewrite Hp. reflexivity.
  - intros Hnone ps Hps. rewrite Hnone. simpl. now rewrite Hps.
Qed.

Lemma explain_returns_plan_or_plans_witness :
  explain "FOR d IN c RETURN d" (PBool true) PNone PNone
    (mkResponse true
       (PDict [("plans", PList [PDict [("estimatedCost", PInt 3)]]);
               ("error", PBool false); ("code", PInt 200)])
       None)
  = Ret (Value (PList [PDict [("estimatedCost", PInt 3)]])) /\
  explain "FOR d IN c RETURN d" (PBool false) PNone PNone
    (mkResponse true
       (PDict [("plan", PDict [("estimatedCost", PInt 3)]);
               ("error", PBool false); ("code", PInt 200)])
       None)
  = Ret (Value (PDict [("estimatedCost", PInt 3)])).
Proof.
  split.
  - apply (proj2 (explain_returns_plan_or_plans
                    "FOR d IN c RETURN d" (PBool true) PNone PNone
                    (mkResponse true _ None) _ eq_refl eq_refl));
      reflexivity.
  - apply (proj1 (explain_returns_plan_or_plans
                    "FOR d IN c RETURN d" (PBool false) PNone PNone
                    (mkResponse true _ None) _ eq_refl eq_refl));
      reflexivity.
Defined.

(** ** AQL.delete_function *)

(** C4.  [delete_function] returns [False] when the response carries the
    error code 1582 and [ignore_missing] is set.  In every other case it
    raises [AQLFunctionDeleteError] on a response that is not a success,
    and on a success returns [{deleted: count}] with the count read from
    [deletedCount] in the body. *)
Theorem delete_function_outcomes
    (name : string) (group ignore_missing : bool) (resp : Response) :
  (error_code resp = Some 1582 -> ignore_missing = true ->
   delete_function name group ignore_missing resp
   = Ret (Value (PBool false))) /\
  (~ (error_code resp = Some 1582 /\ ignore_missing = true) ->
   is_success resp = false ->
   delete_function name group ignore_missing resp
   = Raise (ServerError AQLFunctionDeleteError resp
              (delete_function_request name group))) /\
  (~ (error_code resp = Some 1582 /\ ignore_missing = true) ->
   is_success resp = true ->
   forall d n, body resp = PDict d -> get d "deletedCount" = Some n ->
               delete_function name group ignore_missing resp
               = Ret (Value (PDict [("deleted", n)]))).
Proof.
  unfold delete_function, delete_function_handler, error_code_is.
  split; [|split].
  - intros -> ->. reflexivity.
  - intros Hn Hs. rewrite Hs. simpl.
    destruct (error_code resp) as [c|]; [|reflexivity].
    destruct (Z.eqb_spec c 1582) as [->|]; [|reflexivity].
    destruct ignore_missing; [|reflexivity]. elim Hn. auto.
  - intros Hn Hs d n Hb Hd. rewrite Hs, Hb. simpl. rewrite Hd. simpl.
    destruct (error_code resp) as [c|]; [|reflexivity].
    destruct (Z.eqb_spec c 1582) as [->|]; [|reflexivity].
    destruct ignore_missing; [|reflexivity]. elim Hn. auto.
Qed.

Lemma delete_function_outcomes_witness :
  delete_function "ns::fn" false true
    (mkResponse false (PDict [("error", PBool true);
                              ("errorNum", PInt 1582)]) (Some 1582))
  = Ret (Value (PBool false)) /\
  delete_function "ns::fn" false false
    (mkResponse false (PDict [("error", PBool true);
                              ("errorNum", PInt 1582)]) (Some 1582))
  = Raise (ServerError AQLFunctionDeleteError
             (mkResponse false (PDict [("error", PBool true);
                                       ("errorNum", PInt 1582)]) (Some 1582))
             (delete_function_request "ns::fn" false)) /\
  delete_function "ns::fn" false false
    (mkResponse true (PDict [("deletedCount", PInt 1)]) None)
  = Ret (Value (PDict [("deleted", PInt 1)])).
Proof.
  split; [|split].
  - apply (proj1 (delete_function_outcomes "ns::fn" false true
                    (mkResponse false _ (Some 1582)))); reflexivity.
  - apply (proj1 (proj2 (delete_function_outcomes "ns::fn" false false
                           (mkResponse false _ (Some 1582)))));
      [intros [_ H]; discriminate H | reflexivity].
  - apply (proj2 (proj2 (delete_function_outcomes "ns::fn" false false
                           (mkResponse true _ None)))
             (fun H => match proj2 H with eq_refl => I end)
             eq_refl [("deletedCount", PInt 1)] (PInt 1) eq_refl eq_refl).
Defined.

(** C9.  In [delete_function] the test of the error code comes before the
    test of success: with [ignore_missing] set, a response carrying the
    code 1582 gives [False] whatever its success flag and body, so it never
    gives a deleted count. *)
Theorem delete_function_code_before_success
    (name : string) (group : bool) (resp : Response) :
  error_code resp = Some 1582 ->
  delete_function name group true resp = Ret (Value (PBool false)) /\
  (forall n, delete_function name group true resp
             <> Ret (Value (PDict [("deleted", n)]))).
Proof.
  intros H.
  assert (E : delete_function name group true resp
              = Ret (Value (PBool false))).
  { unfold delete_function, delete_function_handler, error_code_is.
    now rewrite H. }
  split; [exact E|]. intros n. rewrite E. discriminate.
Qed.

Lemma delete_function_code_before_success_witness :
  delete_function "ns::fn" false true
    (mkResponse true (PDict [("deletedCount", PInt 1)]) (Some 1582))
  = Ret (Value (PBool false)).
Proof.
  apply (proj1 (delete_function_code_before_success "ns::fn" false
                  (mkResponse true (PDict [("deletedCount", PInt 1)])
                     (Some 1582))
                  eq_refl)).
Defined.

(** ** Error propagation *)

Module HandlerFacts.

Lemma nse_ret {A : Type} (a : A) : no_server_error (Ret a).
Proof. exact I. Qed.

Lemma nse_bind {A B : Type} (m : outcome A) (f : A -> outcome B) :
  no_server_error m -> (forall a, no_server_error (f a)) ->
  no_server_error (bind m f).
Proof. destruct m as [a|e]; simpl; auto. Qed.

Lemma nse_py_contains (k : string) (x : pyval) :
  no_server_error (py_contains k x).
Proof. destruct x; exact I. Qed.

Lemma nse_py_getitem (x : pyval) (k : string) :
  no_server_error (py_getitem x k).
Proof. destruct x; simpl; try exact I. destruct (get d k); exact I. Qed.

Lemma nse_py_setitem (x : pyval) (k : string) (v : pyval) :
  no_server_error (py_setitem x k v).
Proof. destruct x; exact I. Qed.

Lemma nse_py_pop (x : pyval) (k : string) : no_server_error (py_pop x k).
Proof. destruct x; simpl; try exact I. destruct (get d k); exact I. Qed.

Lemma nse_py_pop_default (x : pyval) (k : string) :
  no_server_error (py_pop_default x k).
Proof. destruct x; exact I. Qed.

Lemma nse_py_iter (x : pyval) : no_server_error (py_iter x).
Proof. destruct x; exact I. Qed.

Lemma nse_mapM {A B : Type} (f : A -> outcome B) (l : list A) :
  (forall a, no_server_error (f a)) -> no_server_error (mapM f l).
Proof.
  intros Hf. induction l as [|a r IH]; simpl; [exact I|].
  apply nse_bind; [apply Hf|]. intros b.
  apply nse_bind; [exact IH|]. intros bs. exact I.
Qed.

Create HintDb nse.
#[local] Hint Resolve nse_ret nse_py_contains nse_py_getitem nse_py_setitem
  nse_py_pop nse_py_pop_default nse_py_iter : nse.

Ltac nse :=
  repeat first
    [ exact I
    | apply nse_bind; [|intros ?]
    | apply nse_mapM; intros ?
    | progress auto with nse
    | match goal with
      | |- no_server_error (if ?c then _ else _) => destruct c
      | |- no_server_error (match ?x with _ => _ end) => destruct x
      end ].

Lemma nse_rename_key (old new : string) (x : pyval) :
  no_server_error (rename_key old new x).
Proof. unfold rename_key. nse. Qed.

#[local] Hint Resolve nse_rename_key : nse.

Lemma nse_for_each (f : pyval -> outcome pyval) (x : pyval) :
  (forall a, no_server_error (f a)) -> no_server_error (for_each f x).
Proof. intros Hf. unfold for_each. nse. Qed.

Lemma nse_format_tracking (b : pyval) : no_server_error (_format_tracking b).
Proof. unfold _format_tracking. nse. Qed.

Lemma nse_format_queries (b : pyval) : no_server_error (_format_queries b).
Proof. unfold _format_queries. apply nse_for_each. intros a. nse. Qed.

#[local] Hint Resolve nse_format_tracking nse_format_queries : nse.

(** On a success no handler but that of [delete_function] with its
    code test raises a server error. *)
Lemma nse_handler_success (op : operation) (im : bool)
    (request : Request) (resp : Response) :
  op <> OpDeleteFunction -> is_success resp = true ->
  no_server_error (handler_of op im request resp).
Proof.
  intros Hop Hs.
  destruct op; try (now elim Hop); simpl;
    match goal with
    | |- no_server_error (?h _ _) => unfold h
    end; rewrite Hs; cbn [negb]; cbv iota; nse.
Qed.

Lemma outcome_with_error_code_nse {A : Type} (c : option Z) (o : outcome A) :
  no_server_error o -> outcome_with_error_code c o = o.
Proof. destruct o as [a|[]]; simpl; tauto. Qed.

End HandlerFacts.

Import HandlerFacts.

(** C8.  The handler of every operation but [delete_function] raises the
    error of that operation on a response that is not a success and raises
    no server error on a success; its outcome does not depend on the error
    code of the response, which only travels inside the exception.  The
    handler of [delete_function] does depend on it. *)
Theorem handlers_raise_iff_not_success :
  (forall op im request resp,
      op <> OpDeleteFunction ->
      (is_success resp = false ->
       handler_of op im request resp
       = Raise (ServerError (error_of op) resp request)) /\
      (is_success resp = true ->
       forall k r q,
         handler_of op im request resp <> Raise (ServerError k r q)) /\
      (forall c,
          handler_of op im request (with_error_code c resp)
          = outcome_with_error_code c (handler_of op im request resp))) /\
  (exists request resp c,
      handler_of OpDeleteFunction true request (with_error_code c resp)
      <> outcome_with_error_code c
           (handler_of OpDeleteFunction true request resp)).
Proof.
  split.
  - intros op im request resp Hop.
    assert (Hfail : forall r, is_success r = false ->
                    handler_of op im request r
                    = Raise (ServerError (error_of op) r request)).
    { intros r Hr.
      destruct op; try (now elim Hop); simpl;
        match goal with
        | |- ?h _ _ = _ => unfold h
        end; rewrite Hr; reflexivity. }
    split; [|split].
    + intros Hs. now apply Hfail.
    + intros Hs k r q E.
      pose proof (nse_handler_success op im request resp Hop Hs) as H.
      rewrite E in H. exact H.
    + intros c. destruct (is_success resp) eqn:Hs.
      * rewrite outcome_with_error_code_nse
          by (now apply nse_handler_success).
        destruct resp as [s b ec]. simpl in Hs. subst s.
        unfold with_error_code. simpl.
        destruct op; try (now elim Hop); reflexivity.
      * rewrite (Hfail resp Hs).
        rewrite (Hfail (with_error_code c resp)) by exact Hs.
        reflexivity.
  - exists (Request_ "delete" "/_api/aqlfunction/f"),
      (mkResponse false PNone None), (Some 1582).
    discriminate.
Qed.

Lemma handlers_raise_iff_not_success_witness :
  kill_handler (kill_request "42") (mkResponse false PNone (Some 1500))
  = Raise (ServerError AQLQueryKillError
             (mkResponse false PNone (Some 1500)) (kill_request "42")) /\
  clear_handler clear_request (mkResponse false PNone (Some 1582))
  = Raise (ServerError AQLCacheClearError
             (mkResponse false PNone (Some 1582)) clear_request).
Proof.
  split.
  - apply (proj1 (proj1 handlers_raise_iff_not_success OpKill false
                    (kill_request "42") (mkResponse false PNone (Some 1500))
                    (fun H => match H with eq_refl => I end))
             eq_refl).
  - apply (proj1 (proj1 handlers_raise_iff_not_success OpCacheClear false
                    clear_request (mkResponse false PNone (Some 1582))
                    (fun H => match H with eq_refl => I end))
             eq_refl).
Defined.

(** ** AQL.execute: the script of a transaction *)

Module StringFacts.

Lemma append_assoc (a b c : string) : (a ++ b) ++ c = a ++ b ++ c.
Proof. induction a as [|x a IH]; simpl; [reflexivity | now rewrite IH]. Qed.

Lemma prefix_app (k b : string) : prefix k (k ++ b) = true.
Proof.
  induction k as [|x k IH]; simpl.
  - now destruct b.
  - destruct (ascii_dec x x) as [_|N]; [exact IH | now elim N].
Qed.

Lemma occurs_in_app (a k b : string) : occurs_in k (a ++ k ++ b) = true.
Proof.
  assert (Hunfold : forall s,
             occurs_in k s =
             (prefix k s ||
              match s with
              | EmptyString => false
              | String _ r => occurs_in k r
              end)%bool) by (intros []; reflexivity).
  induction a as [|x a IH].
  - simpl append. rewrite Hunfold, prefix_app. reflexivity.
  - simpl append. rewrite Hunfold, IH. apply orb_true_r.
Qed.

Lemma part_occurs_in (s t : string) : part s t -> occurs_in s t = true.
Proof. intros (a & b & ->). apply occurs_in_app. Qed.

Lemma part_refl (s : string) : part s s.
Proof.
  exists "", "". simpl.
  induction s as [|x s IH]; simpl; [reflexivity | now rewrite <- IH].
Qed.

Lemma part_trans (s t u : string) : part s t -> part t u -> part s u.
Proof.
  intros (a & b & ->) (a' & b' & ->).
  exists (a' ++ a), (b ++ b'). now rewrite !append_assoc.
Qed.

Lemma part_app_l (s t a : string) : part s t -> part s (a ++ t).
Proof.
  intros (x & y & ->). exists (a ++ x), y. now rewrite !append_assoc.
Qed.

Lemma part_app_r (s t b : string) : part s t -> part s (t ++ b).
Proof.
  intros (x & y & ->). exists x, (y ++ b). now rewrite !append_assoc.
Qed.

Lemma part_concat (sep x : string) (l : list string) :
  In x l -> part x (String.concat sep l).
Proof.
  induction l as [|y r IH]; simpl; [tauto|].
  intros [->|Hin].
  - destruct r; [apply part_refl | apply part_app_r, part_refl].
  - destruct r as [|z r']; [contradiction|].
    apply part_app_l, part_app_l, IH, Hin.
Qed.

End StringFacts.

Import StringFacts.

(** A field of a dictionary is a part of the text of the dictionary. *)
Lemma part_dumps_field (fr : bool -> positive -> Z -> string)
    (d : dict) (k : string) (v : pyval) :
  In (k, v) d ->
  part (encode_basestring_ascii k ++ ": " ++ dumps fr v) (dumps fr (PDict d)).
Proof.
  intros Hin.
  change (dumps fr (PDict d))
    with ("{" ++ String.concat ", "
                   (map (fun kv => encode_basestring_ascii (fst kv) ++ ": "
                                   ++ dumps fr (snd kv)) d)
              ++ "}").
  apply part_app_l, part_app_r, part_concat.
  apply (in_map (fun kv => encode_basestring_ascii (fst kv) ++ ": "
                           ++ dumps fr (snd kv)) d (k, v) Hin).
Qed.

(** C2.  Outside of a transaction the request of [execute] carries no
    script.  Inside one it carries the script that calls [db._query] with
    the JSON texts of the query, of the bind variables and of the payload,
    and ends in [.toArray()]; every option given is a field of that last
    text.  For [execute(query, full_count=True)] the script holds the
    query text and [fullCount: true]. *)
Theorem execute_transaction_script
    (fr : bool -> positive -> Z -> string) (a : execute_args) :
  command (execute_request fr false a) = None /\
  (exists script,
      command (execute_request fr true a) = Some script /\
      script = "db._query(" ++ dumps fr (PStr (query a)) ++ ", "
               ++ dumps fr (bind_vars a) ++ ", "
               ++ dumps fr (data (execute_request fr true a))
               ++ ").toArray()" /\
      (forall k v w, In (k, v, w) (execute_nested a) -> v <> PNone ->
                     occurs_in (quoted k ++ ": " ++ dumps fr w) script
                     = true)) /\
  command (execute_request fr true (execute_full_count "RETURN 1"))
  = Some ("db._query(" ++ quoted "RETURN 1" ++ ", null, {"
          ++ quoted "query" ++ ": " ++ quoted "RETURN 1" ++ ", "
          ++ quoted "count" ++ ": false, "
          ++ quoted "memoryLimit" ++ ": 0, "
          ++ quoted "options" ++ ": {" ++ quoted "fullCount" ++ ": true}, "
          ++ quoted "fullCount" ++ ": true}).toArray()").
Proof.
  split; [reflexivity|]. split; [|reflexivity].
  eexists. split; [reflexivity|]. split; [reflexivity|].
  intros k v w Hin Hv. apply part_occurs_in.
  destruct (execute_nested_get a k v w Hin Hv) as [_ Hget].
  apply get_in in Hget.
  apply part_app_l, part_app_l, part_app_l, part_app_l, part_app_l,
    part_app_r.
  assert (Hq : forall s, escape_string s = s -> quoted s
                         = encode_basestring_ascii s)
    by (intros s E; unfold quoted, encode_basestring_ascii; now rewrite E).
  replace (quoted k) with (encode_basestring_ascii k).
  - apply (part_dumps_field fr (execute_data a) k w Hget).
  - symmetry. apply Hq. clear - Hin. simpl in Hin.
    repeat (destruct Hin as [E|Hin];
            [injection E as <- _ _; reflexivity|]).
    contradiction.
Qed.

(** ** The statements at concrete calls *)

(** [execute("RETURN 1")]: no optional key but [memoryLimit: 0]. *)
Lemma execute_unset_is_absent_witness :
  no_key "batchSize" (execute_data (execute_defaults "RETURN 1")) /\
  no_key "fullCount" (execute_data (execute_defaults "RETURN 1")) /\
  get (execute_data (execute_defaults "RETURN 1")) "memoryLimit"
  = Some (PInt 0).
Proof.
  destruct (execute_unset_is_absent float_repr_example false
              (execute_defaults "RETURN 1"))
    as (payload & Hd & Htop & Hnested & Hmem).
  injection Hd as <-.
  split; [|split].
  - apply (Htop "batchSize" PNone); [simpl; tauto | reflexivity].
  - apply (Hnested "fullCount" PNone PNone); [simpl; tauto | reflexivity].
  - apply Hmem. reflexivity.
Defined.

(** [execute("RETURN 1", full_count=True)] inside a transaction. *)
Lemma execute_transaction_script_witness :
  exists script,
    command (execute_request float_repr_example true
               (execute_full_count "RETURN 1")) = Some script /\
    occurs_in (quoted "fullCount" ++ ": true") script = true /\
    occurs_in (quoted "RETURN 1") script = true.
Proof.
  destruct (execute_transaction_script float_repr_example
              (execute_full_count "RETURN 1"))
    as (_ & (script & Hc & Hs & Hopt) & _).
  exists script. split; [exact Hc|]. split.
  - apply (Hopt "fullCount" (PBool true) (PBool true));
      [simpl; tauto | discriminate].
  - rewrite Hs. reflexivity.
Defined.

(** [execute("RETURN 1", full_count=True)]: the option is sent twice. *)
Lemma execute_options_nested_and_flat_witness :
  get (execute_data (execute_full_count "RETURN 1")) "options"
  = Some (PDict [("fullCount", PBool true)]) /\
  get (execute_data (execute_full_count "RETURN 1")) "fullCount"
  = Some (PBool true) /\
  get (execute_data (execute_defaults "RETURN 1")) "options" = None.
Proof.
  destruct (execute_options_nested_and_flat float_repr_example false
              (execute_full_count "RETURN 1"))
    as (payload & Hd & Hsome & _).
  injection Hd as <-.
  destruct Hsome as (o & Ho & Hboth & _).
  { exists "fullCount", (PBool true), (PBool true).
    split; [simpl; tauto | discriminate]. }
  destruct (execute_options_nested_and_flat float_repr_example false
              (execute_defaults "RETURN 1"))
    as (payload' & Hd' & _ & Hnone).
  injection Hd' as <-.
  split; [reflexivity|]. split.
  - apply (Hboth "fullCount" (PBool true) (PBool true));
      [simpl; tauto | discriminate].
  - apply Hnone. intros k v w Hin. simpl in Hin.
    repeat (destruct Hin as [E|Hin]; [injection E as _ <- _; reflexivity|]).
    contradiction.
Defined.

(** [execute("RETURN 1", memory_limit=None)] and the default call. *)
Lemma execute_memory_limit_key_witness :
  no_key "memoryLimit"
    (execute_data
       (mkExecuteArgs "RETURN 1" (PBool false) PNone PNone PNone PNone PNone
          PNone PNone PNone PNone PNone PNone PNone PNone PNone PNone PNone
          PNone)) /\
  get (execute_data (execute_defaults "RETURN 1")) "memoryLimit"
  = Some (PInt 0).
Proof.
  split.
  - destruct (execute_memory_limit_key float_repr_example false
                (mkExecuteArgs "RETURN 1" (PBool false) PNone PNone PNone
                   PNone PNone PNone PNone PNone PNone PNone PNone PNone
                   PNone PNone PNone PNone PNone))
      as (payload & Hd & Hnone & _).
    injection Hd as <-. apply Hnone. reflexivity.
  - destruct (execute_memory_limit_key float_repr_example false
                (execute_defaults "RETURN 1"))
      as (payload & Hd & _ & _ & _ & Hgiven).
    injection Hd as <-. apply Hgiven. discriminate.
Defined.

(** [set_tracking(max_slow_queries=5)]. *)
Lemma set_tracking_sends_given_fields_witness :
  get (set_tracking_data
         (mkTrackingArgs PNone (PInt 5) PNone PNone PNone PNone))
    "maxSlowQueries" = Some (PInt 5).
Proof.
  destruct (set_tracking_sends_given_fields
              (mkTrackingArgs PNone (PInt 5) PNone PNone PNone PNone))
    as (payload & Hd & _ & Hiff & _).
  injection Hd as <-. apply Hiff.
  exists "max_slow_queries". split; [simpl; tauto | discriminate].
Defined.

(** The round trip of a tracking body as the server sends it. *)
Lemma set_tracking_round_trip_witness :
  exists norm a,
    _format_tracking
      (PDict [("maxSlowQueries", PInt 5); ("enabled", PBool true);
              ("slowQueryThreshold", PInt 10); ("trackBindVars", PBool false)])
    = Ret (PDict norm) /\
    tracking_kwargs norm = Some a /\
    Dict.equiv (set_tracking_data a)
      [("maxSlowQueries", PInt 5); ("enabled", PBool true);
       ("slowQueryThreshold", PInt 10); ("trackBindVars", PBool false)].
Proof.
  destruct (set_tracking_round_trip
              [("maxSlowQueries", PInt 5); ("enabled", PBool true);
               ("slowQueryThreshold", PInt 10);
               ("trackBindVars", PBool false)])
    as (norm & a & Hf & Ha & _ & _ & _ & Heq).
  - unfold wf. simpl. repeat constructor; simpl; intuition discriminate.
  - simpl. intuition (subst; tauto).
  - exists norm, a. split; [exact Hf|]. split; [exact Ha|].
    apply Heq. intros k. simpl.
    repeat match goal with
           | |- context [(k =? ?s)%string] =>
               destruct (k =? s)%string; [discriminate|]
           end.
    discriminate.
Defined.

(** * Further properties of the module *)

(** ** AQL.execute *)

Module PayloadFacts.

Lemma wf_update (o d : dict) : wf d -> wf (update d o).
Proof.
  revert d. induction o as [|[k v] r IH]; simpl; intros d H; [exact H|].
  apply IH, wf_set, H.
Qed.

Lemma wf_execute_data (a : execute_args) : wf (execute_data a).
Proof.
  unfold execute_data, set_if_not_none.
  apply wf_update. repeat apply wf_cond_set.
  unfold wf. simpl. repeat constructor; simpl; intuition discriminate.
Qed.

Lemma execute_options_get_inv (a : execute_args) (k : string) (x : pyval) :
  get (execute_options a) k = Some x ->
  exists v, In (k, v, x) (execute_nested a) /\ v <> PNone.
Proof.
  intros H. rewrite get_execute_options in H.
  repeat match type of H with
         | context [((k =? ?s)%string && is_not_none ?v)%bool] =>
             destruct (String.eqb_spec k s);
             [ subst k; destruct (is_not_none v) eqn:Hnn; simpl in H;
               [ injection H as <-; eexists; split;
                 [ simpl; eauto 20
                 | apply is_not_none_true; exact Hnn ]
               | ]
             | simpl in H ]
         end.
  all: discriminate H.
Qed.

End PayloadFacts.

Import PayloadFacts.

(** X1.  The payload of [execute] is a proper dictionary, no key twice
    although the options are stored a second time, and it always holds
    the query and the count flag. *)
Theorem execute_payload_well_formed
    (fr : bool -> positive -> Z -> string) (tx : bool) (a : execute_args) :
  exists payload,
    data (execute_request fr tx a) = PDict payload /\
    wf payload /\
    get payload "query" = Some (PStr (query a)) /\
    get payload "count" = Some (count a).
Proof.
  exists (execute_data a). split; [reflexivity|].
  split; [apply wf_execute_data|].
  split; rewrite get_execute_data, get_execute_options; reflexivity.
Qed.

(** X2.  What the payload of [execute] holds, exactly: the query, the
    count flag, each of batch_size, ttl, bind_vars, cache and memory_limit
    that is not [None] (a false or zero value is sent), the options
    dictionary when it is not empty, and every option given. *)
Theorem execute_payload_exact
    (fr : bool -> positive -> Z -> string) (tx : bool) (a : execute_args) :
  exists payload,
    data (execute_request fr tx a) = PDict payload /\
    forall k v,
      get payload k = Some v <->
      (k = "query" /\ v = PStr (query a)) \/
      (k = "count" /\ v = count a) \/
      (In (k, v) (execute_top_level a) /\ v <> PNone) \/
      (k = "memoryLimit" /\ v = memory_limit a /\ v <> PNone) \/
      (k = "options" /\ v = PDict (execute_options a)
       /\ execute_options a <> []) \/
      (exists arg, In (k, arg, v) (execute_nested a) /\ arg <> PNone).
Proof.
  exists (execute_data a). split; [reflexivity|].
  intros k v. split.
  - intros H. rewrite get_execute_data in H.
    destruct (get (execute_options a) k) as [x|] eqn:E.
    + injection H as <-. do 5 right. now apply execute_options_get_inv.
    + repeat match type of H with
             | context [((k =? ?s)%string && ?c)%bool] =>
                 destruct (String.eqb_spec k s);
                 [ subst k; destruct c eqn:Hc; simpl in H;
                   [ injection H as <-
                   | ]
                 | simpl in H ]
             end.
      all: repeat match type of H with
             | context [(?x =? ?s)%string] =>
                 is_var x;
                 destruct (String.eqb_spec x s);
                 [ subst x; simpl in H; injection H as <- | simpl in H ]
             end.
      all: try discriminate H.
      all: try (apply is_not_none_true in Hc).
      * do 4 right. left. repeat split.
        intros E'. rewrite E' in Hc. discriminate Hc.
      * do 3 right. left. auto.
      * do 2 right. left. split; [simpl; tauto | exact Hc].
      * do 2 right. left. split; [simpl; tauto | exact Hc].
      * do 2 right. left. split; [simpl; tauto | exact Hc].
      * do 2 right. left. split; [simpl; tauto | exact Hc].
      * left. auto.
      * right. left. auto.
  - intros [[-> ->]|[[-> ->]|[[Hin Hv]|[(-> & -> & Hv)|[(-> & -> & Hv)
                                                     |(arg & Hin & Hv)]]]]].
    + rewrite get_execute_data, get_execute_options. reflexivity.
    + rewrite get_execute_data, get_execute_options. reflexivity.
    + apply is_not_none_true in Hv. simpl in Hin.
      repeat (destruct Hin as [E|Hin];
              [ injection E as <- <-;
                rewrite get_execute_data, get_execute_options; simpl;
                rewrite Hv; destruct (execute_options a); reflexivity
              | ]).
      contradiction.
    + apply is_not_none_true in Hv.
      rewrite get_execute_data, get_execute_options. simpl.
      rewrite Hv. destruct (execute_options a); reflexivity.
    + rewrite get_execute_data_options.
      destruct (execute_options a); [now elim Hv | reflexivity].
    + now apply (execute_nested_get a k arg v).
Qed.

(** X3.  The collections declared for a transaction travel beside the
    payload of [execute], never in it: the request holds them in its
    [read] and [write] fields, and neither the payload nor the script
    changes with them. *)
Theorem execute_collections_out_of_band
    (fr : bool -> positive -> Z -> string) (tx : bool) (a : execute_args)
    (r w : pyval) :
  read (execute_request fr tx (with_collections a r w)) = r /\
  write (execute_request fr tx (with_collections a r w)) = w /\
  data (execute_request fr tx (with_collections a r w))
  = data (execute_request fr tx a) /\
  command (execute_request fr tx (with_collections a r w))
  = command (execute_request fr tx a).
Proof. repeat split. Qed.

(** ** AQL.explain *)

(** X4.  The payload of [explain] holds the query and an [options]
    dictionary that always holds [allPlans], holds [maxNumberOfPlans] and
    [optimizer] (as [{rules: ...}]) exactly when they are given, and holds
    nothing else; unlike [execute], nothing is stored a second time at the
    top level. *)
Theorem explain_request_payload
    (q : string) (all_plans max_plans opt_rules : pyval) :
  exists options,
    data (explain_request q all_plans max_plans opt_rules)
    = PDict [("query", PStr q); ("options", PDict options)] /\
    wf options /\
    get options "allPlans" = Some all_plans /\
    get options "maxNumberOfPlans"
    = (if is_not_none max_plans then Some max_plans else None) /\
    get options "optimizer"
    = (if is_not_none opt_rules
       then Some (PDict [("rules", opt_rules)]) else None) /\
    (forall k, get options k <> None ->
               In k ["allPlans"; "maxNumberOfPlans"; "optimizer"]).
Proof.
  exists (explain_options all_plans max_plans opt_rules).
  split; [reflexivity|].
  assert (Hget : forall k,
             get (explain_options all_plans max_plans opt_rules) k =
             if ((k =? "optimizer")%string && is_not_none opt_rules)%bool
             then Some (PDict [("rules", opt_rules)])
             else if ((k =? "maxNumberOfPlans")%string
                      && is_not_none max_plans)%bool
             then Some max_plans
             else if (k =? "allPlans")%string then Some all_plans else None).
  { intros k. unfold explain_options, set_if_not_none.
    rewrite !get_cond_set. reflexivity. }
  split; [|split; [|split; [|split]]].
  - unfold explain_options, set_if_not_none.
    repeat apply wf_cond_set.
    unfold wf. simpl. repeat constructor. simpl. tauto.
  - rewrite Hget. reflexivity.
  - rewrite Hget. simpl. destruct (is_not_none max_plans); reflexivity.
  - rewrite Hget. simpl. destruct (is_not_none opt_rules); reflexivity.
  - intros k H. rewrite Hget in H. simpl.
    destruct (String.eqb_spec k "optimizer"); [subst; auto 10|].
    destruct (String.eqb_spec k "maxNumberOfPlans"); [subst; auto 10|].
    destruct (String.eqb_spec k "allPlans"); [subst; auto 10|].
    simpl in H. now elim H.
Qed.

(** X5.  On a success, [explain] raises [KeyError] for [plans] when the
    body is a dictionary with neither [plan] nor [plans], and [TypeError]
    when the body is no dictionary at all. *)
Theorem explain_malformed_body
    (q : string) (all_plans max_plans opt_rules : pyval) (resp : Response) :
  is_success resp = true ->
  (forall d, body resp = PDict d ->
             get d "plan" = None -> get d "plans" = None ->
             explain q all_plans max_plans opt_rules resp
             = Raise (KeyError "plans")) /\
  ((forall d, body resp <> PDict d) ->
   explain q all_plans max_plans opt_rules resp = Raise TypeError).
Proof.
  intros Hs. unfold explain, explain_handler. rewrite Hs. simpl. split.
  - intros d Hb H1 H2. rewrite Hb. simpl. unfold has.
    rewrite H1. simpl. now rewrite H2.
  - intros Hnd. destruct (body resp) as [| | | | s |l|d]; try reflexivity.
    + simpl. destruct (occurs_in "plan" s); reflexivity.
    + simpl. destruct (existsb _ l); reflexivity.
    + now elim (Hnd d).
Qed.

Lemma explain_malformed_body_witness :
  explain "RETURN 1" (PBool false) PNone PNone
    (mkResponse true (PDict [("error", PBool false)]) None)
  = Raise (KeyError "plans") /\
  explain "RETURN 1" (PBool false) PNone PNone
    (mkResponse true (PList [PStr "plan"]) None)
  = Raise TypeError.
Proof.
  split.
  - apply (proj1 (explain_malformed_body "RETURN 1" (PBool false) PNone PNone
                    (mkResponse true (PDict [("error", PBool false)]) None)
                    eq_refl) [("error", PBool false)]); reflexivity.
  - apply (proj2 (explain_malformed_body "RETURN 1" (PBool false) PNone PNone
                    (mkResponse true (PList [PStr "plan"]) None)
                    eq_refl)).
    intros d H. discriminate H.
Defined.

(** ** The tracking formatter *)

Module NormFacts.

Lemma remove_absent (d : dict) (k : string) :
  get d k = None -> remove d k = d.
Proof.
  induction d as [|[k0 v0] r IH]; simpl; [reflexivity|].
  destruct (k =? k0)%string; [discriminate|].
  intros H. now rewrite IH.
Qed.

Lemma rename_absent (d : dict) (old new : string) :
  get d old = None -> rename d old new = d.
Proof. intros H. unfold rename. now rewrite H. Qed.

(** The transport fields and the renamed wire names are gone from the
    normalised dictionary. *)
Lemma tracking_norm_stripped (body : dict) (k : string) :
  wf body ->
  In k ["code"; "error"; "maxQueryStringLength"; "maxSlowQueries";
        "slowQueryThreshold"; "trackBindVars"; "trackSlowQueries"] ->
  get (tracking_norm body) k = None.
Proof.
  intros Hwf Hin. rewrite get_tracking_norm by exact Hwf. simpl in Hin.
  repeat (destruct Hin as [<-|Hin]; [reflexivity|]). contradiction.
Qed.

Lemma mapM_dicts (f : pyval -> outcome pyval) (g : dict -> dict)
    (ds : list dict) :
  (forall d, f (PDict d) = Ret (PDict (g d))) ->
  mapM f (map PDict ds) = Ret (map PDict (map g ds)).
Proof.
  intros Hf. induction ds as [|d r IH]; simpl; [reflexivity|].
  rewrite Hf. simpl. rewrite IH. reflexivity.
Qed.

Lemma mapM_raise {A B : Type} (f : A -> outcome B) (l : list A) (x : A) :
  In x l -> (exists e, f x = Raise e) -> exists e, mapM f l = Raise e.
Proof.
  intros Hin Hx. induction l as [|a r IH]; simpl in *; [contradiction|].
  destruct (f a) as [b|e] eqn:E; simpl; [|eauto].
  destruct Hin as [->|Hin].
  - destruct Hx as [e Hx]. rewrite Hx in E. discriminate E.
  - destruct (IH Hin) as [e He]. rewrite He. simpl. eauto.
Qed.

End NormFacts.

Import NormFacts.

(** X6.  What [_format_tracking] makes of any dictionary: the transport
    fields [code] and [error] and the five renamed wire names are gone;
    each keyword of [set_tracking] holds the value of its wire name when
    the body has one, and otherwise what the body already held under the
    keyword; every other key is left as it is. *)
Theorem format_tracking_fields (body : dict) :
  wf body ->
  exists norm,
    _format_tracking (PDict body) = Ret (PDict norm) /\
    wf norm /\
    (forall k,
        In k ["code"; "error"; "maxQueryStringLength"; "maxSlowQueries";
              "slowQueryThreshold"; "trackBindVars"; "trackSlowQueries"] ->
        get norm k = None) /\
    (forall kw w v,
        In (kw, w, v) (set_tracking_fields tracking_defaults) ->
        get norm kw = match get body w with
                      | Some x => Some x
                      | None => get body kw
                      end) /\
    (forall k,
        ~ In k ["code"; "error"; "maxQueryStringLength"; "maxSlowQueries";
                "slowQueryThreshold"; "trackBindVars"; "trackSlowQueries"] ->
        set_tracking_wire_name k = None ->
        get norm k = get body k).
Proof.
  intros Hwf. exists (tracking_norm body).
  split; [apply format_tracking_dict|].
  split; [now apply wf_tracking_norm|].
  split; [intros k; now apply tracking_norm_stripped|]. split.
  - intros kw w v Hin. rewrite get_tracking_norm by exact Hwf.
    simpl in Hin.
    repeat (destruct Hin as [E|Hin];
            [ injection E as <- <- _; simpl;
              try (destruct (get body _)); reflexivity | ]).
    contradiction.
  - intros k Hnin Hnone. rewrite get_tracking_norm by exact Hwf.
    repeat match goal with
           | |- context [(k =? ?s)%string] =>
               destruct (String.eqb_spec k s) as [Heq|?]; cbv beta iota;
               [ subst k;
                 first [ discriminate Hnone
                       | exfalso; apply Hnin; simpl; tauto ]
               | ]
           end.
    reflexivity.
Qed.

Lemma format_tracking_fields_witness :
  exists norm,
    _format_tracking
      (PDict [("code", PInt 200); ("maxSlowQueries", PInt 5);
              ("max_slow_queries", PInt 7); ("extra", PNone)])
    = Ret (PDict norm) /\
    get norm "max_slow_queries" = Some (PInt 5) /\
    get norm "code" = None /\
    get norm "extra" = Some PNone.
Proof.
  destruct (format_tracking_fields
              [("code", PInt 200); ("maxSlowQueries", PInt 5);
               ("max_slow_queries", PInt 7); ("extra", PNone)])
    as (norm & Hf & _ & Hgone & Hkw & Hother).
  { unfold wf. simpl. repeat constructor; simpl; intuition discriminate. }
  exists norm. split; [exact Hf|]. split; [|split].
  - apply (Hkw "max_slow_queries" "maxSlowQueries" PNone). simpl. tauto.
  - apply Hgone. simpl. tauto.
  - rewrite Hother; [reflexivity | simpl; intuition discriminate
                    | reflexivity].
Defined.

(** X7.  Formatting is idempotent: the formatter leaves a dictionary it
    has produced as it is. *)
Theorem format_tracking_idempotent (body : dict) :
  wf body ->
  exists norm,
    _format_tracking (PDict body) = Ret (PDict norm) /\
    _format_tracking (PDict norm) = Ret (PDict norm).
Proof.
  intros Hwf. exists (tracking_norm body).
  split; [apply format_tracking_dict|].
  rewrite format_tracking_dict. do 2 f_equal.
  pose proof (fun k => tracking_norm_stripped body k Hwf) as Habs.
  remember (tracking_norm body) as norm eqn:E. clear E.
  unfold tracking_norm.
  rewrite (remove_absent norm "code") by (apply Habs; simpl; tauto).
  rewrite (remove_absent norm "error") by (apply Habs; simpl; tauto).
  rewrite (rename_absent norm "maxQueryStringLength")
    by (apply Habs; simpl; tauto).
  rewrite (rename_absent norm "maxSlowQueries")
    by (apply Habs; simpl; tauto).
  rewrite (rename_absent norm "slowQueryThreshold")
    by (apply Habs; simpl; tauto).
  rewrite (rename_absent norm "trackBindVars")
    by (apply Habs; simpl; tauto).
  apply rename_absent, Habs. simpl. tauto.
Qed.

Lemma format_tracking_idempotent_witness :
  exists norm,
    _format_tracking
      (PDict [("error", PBool false); ("trackBindVars", PBool true)])
    = Ret (PDict norm) /\
    _format_tracking (PDict norm) = Ret (PDict norm).
Proof.
  apply (format_tracking_idempotent
           [("error", PBool false); ("trackBindVars", PBool true)]).
  unfold wf. simpl. repeat constructor; simpl; intuition discriminate.
Defined.

(** X8.  The handlers that normalise a body ([validate], [tracking],
    [set_tracking]) return nothing for a successful response whose body is
    no dictionary: the first [pop] raises [TypeError] on a list and
    [AttributeError] on anything else. *)
Theorem normalising_handlers_need_a_dictionary
    (op : operation) (im : bool) (request : Request) (resp : Response) :
  In op [OpValidate; OpTracking; OpSetTracking] ->
  is_success resp = true ->
  (forall d, body resp <> PDict d) ->
  handler_of op im request resp
  = Raise (match body resp with
           | PList _ => TypeError
           | _ => AttributeError
           end).
Proof.
  intros Hop Hs Hnd. simpl in Hop.
  destruct Hop as [<-|[<-|[<-|[]]]]; simpl;
    match goal with |- ?h _ _ = _ => unfold h end;
    rewrite Hs; simpl; unfold _format_tracking;
    destruct (body resp) as [| | | | |l|d]; try reflexivity;
    now elim (Hnd d).
Qed.

Lemma normalising_handlers_need_a_dictionary_witness :
  tracking_handler tracking_request (mkResponse true (PList []) None)
  = Raise TypeError /\
  validate_handler (validate_request "RETURN 1") (mkResponse true PNone None)
  = Raise AttributeError.
Proof.
  split.
  - apply (normalising_handlers_need_a_dictionary OpTracking false
             tracking_request (mkResponse true (PList []) None));
      [simpl; tauto | reflexivity | intros d H; discriminate H].
  - apply (normalising_handlers_need_a_dictionary OpValidate false
             (validate_request "RETURN 1") (mkResponse true PNone None));
      [simpl; tauto | reflexivity | intros d H; discriminate H].
Defined.

(** ** Lists of records: queries, slow_queries, functions *)

Module RecordFacts.

Lemma format_queries_dicts (ds : list dict) :
  _format_queries (PList (map PDict ds))
  = Ret (PList (map PDict (map format_query ds))).
Proof.
  unfold _format_queries, for_each. simpl.
  rewrite (mapM_dicts _ format_query).
  - reflexivity.
  - intros d. rewrite rename_key_dict. simpl. now rewrite rename_key_dict.
Qed.

Lemma get_format_query (d : dict) (k : string) :
  wf d ->
  get (format_query d) k =
    if (k =? "runtime")%string
    then match get d "runTime" with
         | Some v => Some v
         | None => get d "runtime"
         end
    else if (k =? "runTime")%string then None
    else if (k =? "bind_vars")%string
    then match get d "bindVars" with
         | Some v => Some v
         | None => get d "bind_vars"
         end
    else if (k =? "bindVars")%string then None
    else get d k.
Proof.
  intros H. unfold format_query.
  repeat (rewrite get_rename;
          [ | repeat apply wf_rename; exact H | discriminate ]).
  reflexivity.
Qed.

Lemma get_format_function (d : dict) (k : string) :
  wf d ->
  get (format_function d) k =
    if (k =? "is_deterministic")%string
    then match get d "isDeterministic" with
         | Some v => Some v
         | None => get d "is_deterministic"
         end
    else if (k =? "isDeterministic")%string then None
    else get d k.
Proof.
  intros H. unfold format_function.
  rewrite get_rename by (exact H || discriminate). reflexivity.
Qed.

Lemma get_validate_norm (d : dict) (k : string) :
  wf d ->
  get (validate_norm d) k =
    if (k =? "bind_vars")%string
    then match get d "bindVars" with
         | Some v => Some v
         | None => get d "bind_vars"
         end
    else if (k =? "bindVars")%string then None
    else if (k =? "error")%string then None
    else if (k =? "code")%string then None
    else get d k.
Proof.
  intros H. unfold validate_norm.
  rewrite get_rename by (repeat apply wf_remove; exact H || discriminate).
  repeat (rewrite get_remove by (repeat apply wf_remove; exact H)).
  reflexivity.
Qed.

Ltac other_key k Hnin :=
  repeat match goal with
         | |- context [(k =? ?s)%string] =>
             destruct (String.eqb_spec k s) as [Heq|?]; cbv beta iota;
             [ subst k; exfalso; apply Hnin; simpl; tauto | ]
         end;
  try reflexivity.

End RecordFacts.

Import RecordFacts.

(** X9.  [_format_queries] keeps the list of records record by record: in
    each one [bindVars] and [runTime] are gone, [bind_vars] and [runtime]
    hold their values (or what the record already held under those names
    when the wire name is missing), and every other key is untouched. *)
Theorem format_queries_records (ds : list dict) :
  Forall wf ds ->
  exists rs,
    _format_queries (PList (map PDict ds)) = Ret (PList (map PDict rs)) /\
    Forall2
      (fun d r =>
         wf r /\
         get r "bindVars" = None /\
         get r "runTime" = None /\
         get r "bind_vars" = match get d "bindVars" with
                             | Some x => Some x
                             | None => get d "bind_vars"
                             end /\
         get r "runtime" = match get d "runTime" with
                           | Some x => Some x
                           | None => get d "runtime"
                           end /\
         (forall k,
             ~ In k ["bindVars"; "bind_vars"; "runTime"; "runtime"] ->
             get r k = get d k))
      ds rs.
Proof.
  intros Hwf. exists (map format_query ds).
  split; [apply format_queries_dicts|].
  induction Hwf as [|d r Hd Hr IH]; simpl; constructor; [|exact IH].
  split; [unfold format_query; now repeat apply wf_rename|].
  repeat split; try (rewrite get_format_query by exact Hd; reflexivity).
  intros k Hnin. rewrite get_format_query by exact Hd.
  other_key k Hnin.
Qed.

Lemma format_queries_records_witness :
  exists rs,
    _format_queries
      (PList (map PDict [[("id", PStr "7"); ("bindVars", PDict []);
                          ("runTime", PInt 2)];
                         [("id", PStr "8")]]))
    = Ret (PList (map PDict rs)) /\
    List.length rs = 2%nat.
Proof.
  destruct (format_queries_records
              [[("id", PStr "7"); ("bindVars", PDict []);
                ("runTime", PInt 2)];
               [("id", PStr "8")]])
    as (rs & Hf & H2).
  { repeat constructor; simpl; intuition discriminate. }
  exists rs. split; [exact Hf|].
  symmetry. exact (Forall2_length H2).
Defined.

(** X10.  The handlers of [queries] and [slow_queries] return nothing for
    a successful response whose body cannot be walked as records: a body
    that is [None], a truth value or a number raises [TypeError]; a list
    with such an item raises, and the exception is [TypeError] when the
    items before it are dictionaries. *)
Theorem queries_malformed_body
    (op : operation) (im : bool) (request : Request) (resp : Response) :
  In op [OpQueries; OpSlowQueries] ->
  is_success resp = true ->
  (is_scalar (body resp) = true ->
   handler_of op im request resp = Raise TypeError) /\
  (forall l x, body resp = PList l -> In x l -> is_scalar x = true ->
               exists e, handler_of op im request resp = Raise e) /\
  (forall ds x l, body resp = PList (map PDict ds ++ x :: l)%list ->
                  is_scalar x = true ->
                  handler_of op im request resp = Raise TypeError).
Proof.
  intros Hop Hs.
  assert (Hh : handler_of op im request resp
               = (v <- _format_queries (body resp) ;; Ret (Value v))).
  { simpl in Hop. destruct Hop as [<-|[<-|[]]]; simpl;
      match goal with |- ?h _ _ = _ => unfold h end;
      rewrite Hs; reflexivity. }
  rewrite Hh. clear Hh.
  assert (Hx : forall x, is_scalar x = true ->
                         (q <- rename_key "bindVars" "bind_vars" x ;;
                          rename_key "runTime" "runtime" q)
                         = Raise TypeError)
    by (intros [| | | | | |] Hx; try discriminate Hx; reflexivity).
  split; [|split].
  - intros Hb. destruct (body resp); try discriminate Hb; reflexivity.
  - intros l x Hb Hin Hsc. rewrite Hb.
    unfold _format_queries, for_each. simpl.
    destruct (mapM_raise
                (fun query =>
                   query <- rename_key "bindVars" "bind_vars" query ;;
                   rename_key "runTime" "runtime" query) l x Hin)
      as [e He]; [rewrite (Hx x Hsc); eauto|].
    rewrite He. simpl. eauto.
  - intros ds x l Hb Hsc. rewrite Hb. clear Hb.
    unfold _format_queries, for_each. simpl.
    induction ds as [|d r IH]; simpl.
    + rewrite (Hx x Hsc). reflexivity.
    + rewrite !rename_key_dict. simpl. rewrite rename_key_dict. simpl.
      destruct (mapM _ (map PDict r ++ x :: l)%list) as [bs|e];
        simpl in *; [discriminate IH | exact IH].
Qed.

Lemma queries_malformed_body_witness :
  queries_handler queries_request (mkResponse true PNone None)
  = Raise TypeError /\
  slow_queries_handler slow_queries_request
    (mkResponse true (PList [PDict [("id", PStr "7")]; PInt 3]) None)
  = Raise TypeError.
Proof.
  split.
  - apply (proj1 (queries_malformed_body OpQueries false queries_request
                    (mkResponse true PNone None)
                    (or_introl eq_refl) eq_refl)).
    reflexivity.
  - apply (proj2 (proj2 (queries_malformed_body OpSlowQueries false
                           slow_queries_request
                           (mkResponse true
                              (PList [PDict [("id", PStr "7")]; PInt 3])
                              None)
                           (or_intror (or_introl eq_refl)) eq_refl))
             [[("id", PStr "7")]] (PInt 3) []);
      reflexivity.
Defined.

(** ** AQL.validate *)

(** X11.  On a success with a dictionary body, [validate] returns the
    body without [code] and [error] and with [bindVars] renamed to
    [bind_vars]; every other key is returned as the server sent it. *)
Theorem validate_normalises
    (request : Request) (resp : Response) (d : dict) :
  is_success resp = true ->
  body resp = PDict d ->
  wf d ->
  exists norm,
    validate_handler request resp = Ret (Value (PDict norm)) /\
    wf norm /\
    get norm "code" = None /\
    get norm "error" = None /\
    get norm "bindVars" = None /\
    get norm "bind_vars" = match get d "bindVars" with
                           | Some x => Some x
                           | None => get d "bind_vars"
                           end /\
    (forall k, ~ In k ["code"; "error"; "bindVars"; "bind_vars"] ->
               get norm k = get d k).
Proof.
  intros Hs Hb Hwf. exists (validate_norm d). split.
  - unfold validate_handler. rewrite Hs, Hb. simpl.
    rewrite rename_key_dict. reflexivity.
  - split; [unfold validate_norm; now apply wf_rename, wf_remove, wf_remove|].
    repeat split; try (rewrite get_validate_norm by exact Hwf; reflexivity).
    intros k Hnin. rewrite get_validate_norm by exact Hwf.
    other_key k Hnin.
Qed.

Lemma validate_normalises_witness :
  exists norm,
    validate_handler (validate_request "RETURN @x")
      (mkResponse true
         (PDict [("error", PBool false); ("code", PInt 200);
                 ("parsed", PBool true); ("bindVars", PList [PStr "x"])])
         None)
    = Ret (Value (PDict norm)) /\
    get norm "bind_vars" = Some (PList [PStr "x"]) /\
    get norm "parsed" = Some (PBool true) /\
    get norm "code" = None.
Proof.
  destruct (validate_normalises (validate_request "RETURN @x")
              (mkResponse true
                 (PDict [("error", PBool false); ("code", PInt 200);
                         ("parsed", PBool true);
                         ("bindVars", PList [PStr "x"])])
                 None)
              [("error", PBool false); ("code", PInt 200);
               ("parsed", PBool true); ("bindVars", PList [PStr "x"])]
              eq_refl eq_refl)
    as (norm & Hv & _ & Hcode & _ & _ & Hbv & Hother).
  { unfold wf. simpl. repeat constructor; simpl; intuition discriminate. }
  exists norm. split; [exact Hv|]. split; [exact Hbv|]. split; [|exact Hcode].
  rewrite Hother; [reflexivity | simpl; intuition discriminate].
Defined.

(** ** AQL.functions *)

(** X12.  On a success, [functions] returns the empty list when the body
    is empty or false ([None], an empty dictionary, ...) and when it is a
    dictionary without a [result]. *)
Theorem functions_without_result (request : Request) (resp : Response) :
  is_success resp = true ->
  truthy (body resp) = false \/
  (exists d, body resp = PDict d /\ get d "result" = None) ->
  functions_handler request resp = Ret (Value (PList [])).
Proof.
  intros Hs H. unfold functions_handler. rewrite Hs. simpl.
  destruct H as [Hf|(d & Hb & Hr)].
  - rewrite Hf. reflexivity.
  - rewrite Hb. destruct (truthy (PDict d)); simpl; unfold has;
      [rewrite Hr|]; reflexivity.
Qed.

Lemma functions_without_result_witness :
  functions_handler functions_request (mkResponse true PNone None)
  = Ret (Value (PList [])) /\
  functions_handler functions_request
    (mkResponse true (PDict [("error", PBool false); ("code", PInt 200)])
       None)
  = Ret (Value (PList [])).
Proof.
  split.
  - apply (functions_without_result functions_request
             (mkResponse true PNone None) eq_refl).
    left. reflexivity.
  - apply (functions_without_result functions_request
             (mkResponse true
                (PDict [("error", PBool false); ("code", PInt 200)]) None)
             eq_refl).
    right. eexists. split; reflexivity.
Defined.

(** X13.  On a success whose body holds a list of records under
    [result], [functions] returns that list record by record, with
    [isDeterministic] renamed to [is_deterministic] in each and every
    other key untouched. *)
Theorem functions_records
    (request : Request) (resp : Response) (d : dict) (fs : list dict) :
  is_success resp = true ->
  body resp = PDict d ->
  get d "result" = Some (PList (map PDict fs)) ->
  Forall wf fs ->
  exists rs,
    functions_handler request resp = Ret (Value (PList (map PDict rs))) /\
    Forall2
      (fun f r =>
         wf r /\
         get r "isDeterministic" = None /\
         get r "is_deterministic" = match get f "isDeterministic" with
                                    | Some x => Some x
                                    | None => get f "is_deterministic"
                                    end /\
         (forall k, ~ In k ["isDeterministic"; "is_deterministic"] ->
                    get r k = get f k))
      fs rs.
Proof.
  intros Hs Hb Hr Hwf. exists (map format_function fs). split.
  - assert (Ht : truthy (PDict d) = true)
      by (destruct d; [discriminate Hr | reflexivity]).
    unfold functions_handler. rewrite Hs, Hb, Ht.
    unfold py_contains, py_getitem, has. rewrite Hr.
    unfold for_each. cbn [negb bind py_iter].
    rewrite (mapM_dicts _ format_function);
      [reflexivity | intros x; apply rename_key_dict].
  - clear - Hwf.
    induction Hwf as [|f r Hf Hrest IH]; simpl; constructor; [|exact IH].
    split; [now apply wf_rename|].
    repeat split; try (rewrite get_format_function by exact Hf; reflexivity).
    intros k Hnin. rewrite get_format_function by exact Hf.
    other_key k Hnin.
Qed.

Lemma functions_records_witness :
  exists rs,
    functions_handler functions_request
      (mkResponse true
         (PDict [("result",
                  PList (map PDict [[("name", PStr "ns::f");
                                     ("isDeterministic", PBool true)]]))])
         None)
    = Ret (Value (PList (map PDict rs))) /\
    List.length rs = 1%nat.
Proof.
  destruct (functions_records functions_request
              (mkResponse true
                 (PDict [("result",
                          PList (map PDict
                                   [[("name", PStr "ns::f");
                                     ("isDeterministic", PBool true)]]))])
                 None)
              _ [[("name", PStr "ns::f"); ("isDeterministic", PBool true)]]
              eq_refl eq_refl eq_refl)
    as (rs & Hf & H2).
  { repeat constructor; simpl; intuition discriminate. }
  exists rs. split; [exact Hf|]. symmetry. exact (Forall2_length H2).
Defined.

(** ** AQLQueryCache *)

(** X14.  The payload of [configure] holds [mode] and [maxResults] exactly
    when the keywords [mode] and [limit] are given, each with its value,
    and nothing else; [configure()] sends an empty dictionary. *)
Theorem configure_sends_given_fields (mode limit : pyval) :
  exists payload,
    data (configure_request mode limit) = PDict payload /\
    wf payload /\
    (forall k v,
        get payload k = Some v <->
        (k = "mode" /\ v = mode /\ v <> PNone) \/
        (k = "maxResults" /\ v = limit /\ v <> PNone)) /\
    (mode = PNone -> limit = PNone -> payload = []).
Proof.
  exists (configure_data mode limit). split; [reflexivity|].
  assert (Hget : forall k,
             get (configure_data mode limit) k =
             if ((k =? "maxResults")%string && is_not_none limit)%bool
             then Some limit
             else if ((k =? "mode")%string && is_not_none mode)%bool
             then Some mode else None).
  { intros k. unfold configure_data, set_if_not_none.
    rewrite !get_cond_set. reflexivity. }
  split; [|split].
  - unfold configure_data, set_if_not_none.
    repeat apply wf_cond_set. constructor.
  - intros k v. rewrite Hget. split.
    + intros H.
      destruct (String.eqb_spec k "maxResults") as [->|N1].
      * destruct (is_not_none limit) eqn:Hl; simpl in H;
          [|discriminate H].
        injection H as <-. right. repeat split.
        now apply is_not_none_true.
      * destruct (String.eqb_spec k "mode") as [->|N2];
          simpl in H; [|discriminate H].
        destruct (is_not_none mode) eqn:Hm; [|discriminate H].
        injection H as <-. left. repeat split.
        now apply is_not_none_true.
    + intros [(-> & -> & Hv)|(-> & -> & Hv)];
        apply is_not_none_true in Hv; simpl; rewrite Hv; reflexivity.
  - intros -> ->. reflexivity.
Qed.

Lemma configure_sends_given_fields_witness :
  data (configure_request (PStr "demand") PNone)
  = PDict [("mode", PStr "demand")] /\
  data (configure_request PNone PNone) = PDict [].
Proof.
  destruct (configure_sends_given_fields PNone PNone)
    as (payload & Hd & _ & _ & Hnil).
  split; [reflexivity|]. rewrite Hd. f_equal. now apply Hnil.
Defined.

(** X15.  On a success with a dictionary body, [properties] and
    [configure] return [{mode, limit}] with the limit read from
    [maxResults]; a body without [mode] raises [KeyError] for [mode], and
    one with [mode] but without [maxResults] raises it for [maxResults]. *)
Theorem cache_properties_result
    (op : operation) (im : bool) (request : Request) (resp : Response)
    (d : dict) :
  In op [OpCacheProperties; OpCacheConfigure] ->
  is_success resp = true ->
  body resp = PDict d ->
  (forall m l, get d "mode" = Some m -> get d "maxResults" = Some l ->
               handler_of op im request resp
               = Ret (Value (PDict [("mode", m); ("limit", l)]))) /\
  (get d "mode" = None ->
   handler_of op im request resp = Raise (KeyError "mode")) /\
  (forall m, get d "mode" = Some m -> get d "maxResults" = None ->
             handler_of op im request resp = Raise (KeyError "maxResults")).
Proof.
  intros Hop Hs Hb.
  assert (Hh : handler_of op im request resp =
               (mode <- py_getitem (body resp) "mode" ;;
                limit <- py_getitem (body resp) "maxResults" ;;
                Ret (Value (PDict [("mode", mode); ("limit", limit)])))).
  { simpl in Hop. destruct Hop as [<-|[<-|[]]]; simpl;
      match goal with |- ?h _ _ = _ => unfold h end;
      rewrite Hs; reflexivity. }
  rewrite Hh, Hb. unfold py_getitem. split; [|split].
  - intros m l Hm Hl. now rewrite Hm, Hl.
  - intros Hm. now rewrite Hm.
  - intros m Hm Hl. now rewrite Hm, Hl.
Qed.

Lemma cache_properties_result_witness :
  properties_handler properties_request
    (mkResponse true
       (PDict [("mode", PStr "off"); ("maxResults", PInt 128)]) None)
  = Ret (Value (PDict [("mode", PStr "off"); ("limit", PInt 128)])) /\
  configure_handler (configure_request (PStr "on") PNone)
    (mkResponse true (PDict [("mode", PStr "on")]) None)
  = Raise (KeyError "maxResults").
Proof.
  split.
  - apply (proj1 (cache_properties_result OpCacheProperties false
                    properties_request
                    (mkResponse true
                       (PDict [("mode", PStr "off");
                               ("maxResults", PInt 128)]) None)
                    [("mode", PStr "off"); ("maxResults", PInt 128)]
                    (or_introl eq_refl) eq_refl eq_refl));
      reflexivity.
  - apply (proj2 (proj2 (cache_properties_result OpCacheConfigure false
                           (configure_request (PStr "on") PNone)
                           (mkResponse true (PDict [("mode", PStr "on")])
                              None)
                           [("mode", PStr "on")]
                           (or_intror (or_introl eq_refl))
                           eq_refl eq_refl))
             (PStr "on"));
      reflexivity.
Defined.

(** X16.  The cache properties make the round trip: what [properties]
    returns for a body with [mode] and [maxResults], given back to
    [configure] as [mode] and [limit], is sent under the wire names with
    the values of the body. *)
Theorem cache_properties_round_trip
    (request : Request) (resp : Response) (d : dict) (m l : pyval) :
  is_success resp = true ->
  body resp = PDict d ->
  get d "mode" = Some m ->
  get d "maxResults" = Some l ->
  m <> PNone -> l <> PNone ->
  exists r m' l',
    properties_handler request resp = Ret (Value (PDict r)) /\
    get r "mode" = Some m' /\
    get r "limit" = Some l' /\
    data (configure_request m' l') = PDict [("mode", m); ("maxResults", l)].
Proof.
  intros Hs Hb Hm Hl Hmn Hln.
  exists [("mode", m); ("limit", l)], m, l.
  split; [|split; [reflexivity|split; [reflexivity|]]].
  - unfold properties_handler, py_getitem. now rewrite Hs, Hb, Hm, Hl.
  - apply is_not_none_true in Hmn, Hln.
    unfold configure_request, configure_data, set_if_not_none. simpl.
    now rewrite Hmn, Hln.
Qed.

Lemma cache_properties_round_trip_witness :
  exists r m' l',
    properties_handler properties_request
      (mkResponse true
         (PDict [("mode", PStr "off"); ("maxResults", PInt 128)]) None)
    = Ret (Value (PDict r)) /\
    get r "mode" = Some m' /\
    get r "limit" = Some l' /\
    data (configure_request m' l')
    = PDict [("mode", PStr "off"); ("maxResults", PInt 128)].
Proof.
  apply (cache_properties_round_trip properties_request
           (mkResponse true
              (PDict [("mode", PStr "off"); ("maxResults", PInt 128)]) None)
           [("mode", PStr "off"); ("maxResults", PInt 128)]
           (PStr "off") (PInt 128) eq_refl eq_refl eq_refl eq_refl);
    discriminate.
Defined.

(** ** Functions: create and delete *)

(** X17.  Without [ignore_missing], [delete_function] behaves like every
    other operation: the error code of the response plays no part in its
    outcome, a response that is not a success raises
    [AQLFunctionDeleteError] even with the code 1582, and [False] is never
    returned. *)
Theorem delete_function_without_ignore_missing
    (name : string) (group : bool) (resp : Response) :
  (forall c,
      delete_function name group false (with_error_code c resp)
      = outcome_with_error_code c (delete_function name group false resp)) /\
  (is_success resp = false ->
   delete_function name group false resp
   = Raise (ServerError AQLFunctionDeleteError resp
              (delete_function_request name group))) /\
  delete_function name group false resp <> Ret (Value (PBool false)).
Proof.
  unfold delete_function, delete_function_handler.
  rewrite andb_false_r.
  split; [|split].
  - intros c. rewrite andb_false_r.
    destruct resp as [[] b ec]; simpl; [|reflexivity].
    destruct (py_getitem b "deletedCount") as [v|e] eqn:E; simpl;
      [reflexivity|].
    pose proof (nse_py_getitem b "deletedCount") as H. rewrite E in H.
    destruct e; [contradiction | reflexivity ..].
  - intros ->. reflexivity.
  - destruct (is_success resp); simpl; [|discriminate].
    destruct (py_getitem (body resp) "deletedCount"); simpl; discriminate.
Qed.

(** X18.  On a success, [create_function] returns [{is_new: flag}] with
    the flag read from [isNewlyCreated], and raises [KeyError] when the
    body is a dictionary without that field. *)
Theorem create_function_result
    (request : Request) (resp : Response) (d : dict) :
  is_success resp = true ->
  body resp = PDict d ->
  (forall v, get d "isNewlyCreated" = Some v ->
             create_function_handler request resp
             = Ret (Value (PDict [("is_new", v)]))) /\
  (get d "isNewlyCreated" = None ->
   create_function_handler request resp = Raise (KeyError "isNewlyCreated")).
Proof.
  intros Hs Hb. unfold create_function_handler, py_getitem.
  rewrite Hs, Hb. split.
  - intros v Hv. now rewrite Hv.
  - intros Hv. now rewrite Hv.
Qed.

Lemma create_function_result_witness :
  create_function_handler
    (create_function_request "ns::f" "function (x) { return x; }")
    (mkResponse true (PDict [("isNewlyCreated", PBool true)]) None)
  = Ret (Value (PDict [("is_new", PBool true)])) /\
  create_function_handler
    (create_function_request "ns::f" "function (x) { return x; }")
    (mkResponse true (PDict [("code", PInt 201)]) None)
  = Raise (KeyError "isNewlyCreated").
Proof.
  split.
  - apply (proj1 (create_function_result
                    (create_function_request "ns::f"
                       "function (x) { return x; }")
                    (mkResponse true
                       (PDict [("isNewlyCreated", PBool true)]) None)
                    [("isNewlyCreated", PBool true)] eq_refl eq_refl)).
    reflexivity.
  - apply (proj2 (create_function_result
                    (create_function_request "ns::f"
                       "function (x) { return x; }")
                    (mkResponse true (PDict [("code", PInt 201)]) None)
                    [("code", PInt 201)] eq_refl eq_refl)).
    reflexivity.
Defined.

(** X19.  A successful response to [delete_function] that is not turned
    into [False] by the code 1582 and whose body has no [deletedCount]
    raises [KeyError]; a body that is no dictionary raises [TypeError]. *)
Theorem delete_function_missing_count
    (name : string) (group ignore_missing : bool) (resp : Response) :
  is_success resp = true ->
  ~ (error_code resp = Some 1582 /\ ignore_missing = true) ->
  (forall d, body resp = PDict d -> get d "deletedCount" = None ->
             delete_function name group ignore_missing resp
             = Raise (KeyError "deletedCount")) /\
  ((forall d, body resp <> PDict d) ->
   delete_function name group ignore_missing resp = Raise TypeError).
Proof.
  intros Hs Hn.
  assert (Hc : (error_code_is resp 1582 && ignore_missing)%bool = false).
  { unfold error_code_is. destruct (error_code resp) as [c|]; [|reflexivity].
    destruct (Z.eqb_spec c 1582) as [->|]; [|reflexivity].
    destruct ignore_missing; [|reflexivity]. elim Hn. auto. }
  unfold delete_function, delete_function_handler. rewrite Hc, Hs. simpl.
  split.
  - intros d Hb Hd. rewrite Hb. simpl. now rewrite Hd.
  - intros Hnd. destruct (body resp) as [| | | | | |d]; try reflexivity.
    now elim (Hnd d).
Qed.

Lemma delete_function_missing_count_witness :
  delete_function "ns::f" false true
    (mkResponse true (PDict [("code", PInt 200)]) None)
  = Raise (KeyError "deletedCount") /\
  delete_function "ns::f" false false (mkResponse true PNone (Some 1582))
  = Raise TypeError.
Proof.
  split.
  - apply (proj1 (delete_function_missing_count "ns::f" false true
                    (mkResponse true (PDict [("code", PInt 200)]) None)
                    eq_refl
                    (fun H => match proj1 H in _ = c
                                    return match c with
                                           | Some _ => False
                                           | None => True
                                           end
                              with eq_refl => I end))
             [("code", PInt 200)]); reflexivity.
  - apply (proj2 (delete_function_missing_count "ns::f" false false
                    (mkResponse true PNone (Some 1582))
                    eq_refl
                    (fun H => match proj2 H with eq_refl => I end))).
    intros d H. discriminate H.
Defined.
